(** * update_sitemap.py: a shallow embedding and its properties

    The script refreshes the [lastmod], [priority] and [changefreq] children
    of the [<url>] entries of [seo/sitemap.xml] and rewrites the file through
    a temporary file.  The embedding follows [src/update_sitemap.py] function
    by function:

    - Python [str] values are [string]s whose characters are the code
      points below 256; a text with other code points is outside the
      model;
    - the dictionaries [ROUTE_TO_FILE], [PRIORITY_MAP] and [CHANGEFREQ_MAP]
      are [gmap]s built by the inserts of their literals, in order;
    - an ElementTree element is a tag, an optional text and its children;
      the in-place mutation of the tree is a function from the old element
      to the new one;
    - the collaborators (git, the file metadata, the clock, the XML reader
      and the faults of the file operations) are the fields of a [World];
      a [Machine] is a world on which the collaborators may also fail in
      the ways that the script does not handle;
    - exceptions are the [Raise] results of a small error monad, and the
      printed lines are collected in a log. *)

From Stdlib Require Import Ascii String.
From stdpp Require Import base option list gmap strings.

Local Open Scope stdpp_scope.

(** ** Python string primitives *)

Module PyStr.

(** [str.isspace] on the code points below 256: tab, LF, VT, FF, CR
    (9-13), the separators FS GS RS US (28-31), the space (32), NEL (133)
    and the no-break space (160). *)
Definition isspace (c : ascii) : bool :=
  let n := nat_of_ascii c in
  (Nat.leb 9 n && Nat.leb n 13) || (Nat.leb 28 n && Nat.leb n 32) ||
  Nat.eqb n 133 || Nat.eqb n 160.

Definition is_empty (s : string) : bool :=
  match s with EmptyString => true | String _ _ => false end.

(** [s.lstrip()] *)
Fixpoint lstrip (s : string) : string :=
  match s with
  | EmptyString => EmptyString
  | String c s' => if isspace c then lstrip s' else s
  end.

(** [s.rstrip()] *)
Fixpoint rstrip (s : string) : string :=
  match s with
  | EmptyString => EmptyString
  | String c s' =>
      let r := rstrip s' in
      if isspace c && is_empty r then EmptyString else String c r
  end.

(** [s.strip()] *)
Definition strip (s : string) : string := rstrip (lstrip s).

(** [s.split()]: the maximal runs of non-whitespace characters. *)
Fixpoint split_ws_go (cur : option string) (s : string) : list string :=
  match s with
  | EmptyString => option_list (String.rev <$> cur)
  | String c s' =>
      if isspace c
      then option_list (String.rev <$> cur) ++ split_ws_go None s'
      else split_ws_go (Some (String c (default EmptyString cur))) s'
  end.

Definition split_ws (s : string) : list string := split_ws_go None s.

(** [sep in s] *)
Fixpoint contains (sep s : string) : bool :=
  String.prefix sep s ||
  match s with
  | EmptyString => false
  | String _ s' => contains sep s'
  end.

(** [s.find(sep)], [None] standing for [-1]. *)
Fixpoint find (sep s : string) : option nat :=
  if String.prefix sep s then Some 0
  else match s with
       | EmptyString => None
       | String _ s' => S <$> find sep s'
       end.

(** The first piece of a split grows by one character. *)
Definition push_head (c : ascii) (l : list string) : list string :=
  match l with
  | [] => [String c EmptyString]
  | h :: t => String c h :: t
  end.

(** [s.split(sep)] for a non-empty [sep]: the text is cut at the
    occurrences of [sep], found from left to right and not overlapping.
    [skip] counts the characters of a separator still to be passed. *)
Fixpoint split_go (sep : string) (skip : nat) (s : string) : list string :=
  match s with
  | EmptyString => [EmptyString]
  | String c s' =>
      match skip with
      | S k => split_go sep k s'
      | O =>
          if String.prefix sep s
          then EmptyString :: split_go sep (String.length sep - 1) s'
          else push_head c (split_go sep 0 s')
      end
  end.

Definition split (sep s : string) : list string := split_go sep 0 s.

(** [s.replace(old, new)] for a non-empty [old]. *)
Fixpoint replace_go (old new : string) (skip : nat) (s : string) : string :=
  match s with
  | EmptyString => EmptyString
  | String c s' =>
      match skip with
      | S k => replace_go old new k s'
      | O =>
          if String.prefix old s
          then new +:+ replace_go old new (String.length old - 1) s'
          else String c (replace_go old new 0 s')
      end
  end.

Definition replace (old new s : string) : string := replace_go old new 0 s.

(** Truth value of an [Optional[str]]: [None] and the empty string are
    false. *)
Definition truthy (o : option string) : bool :=
  match o with
  | Some s => negb (is_empty s)
  | None => false
  end.

(** [a or b] on strings. *)
Definition or_else (a b : string) : string := if is_empty a then b else a.

End PyStr.

(** ** xml.sax.saxutils.escape and the reader's character data *)

Module Sax.

Definition amp : ascii := "&"%char.
Definition lt : ascii := "<"%char.
Definition gt : ascii := ">"%char.
Definition quot : ascii := ascii_of_nat 34.
Definition apos : ascii := "'"%char.

Definition str1 (c : ascii) : string := String c EmptyString.

(** [saxutils.escape(data)] with the default, empty [entities]:
<<
    data = data.replace("&", "&amp;")
    data = data.replace(">", "&gt;")
    data = data.replace("<", "&lt;")
>> *)
Definition escape (data : string) : string :=
  let data := PyStr.replace "&" "&amp;" data in
  let data := PyStr.replace ">" "&gt;" data in
  let data := PyStr.replace "<" "&lt;" data in
  data.

(** What one character of the data becomes. *)
Definition escape_char (c : ascii) : string :=
  if Ascii.eqb c amp then "&amp;"
  else if Ascii.eqb c gt then "&gt;"
  else if Ascii.eqb c lt then "&lt;"
  else str1 c.

(** An escaping of all five special characters, as a reader of the
    specification would write it; [escape] is compared with it. *)
Definition escape_five_char (c : ascii) : string :=
  if Ascii.eqb c amp then "&amp;"
  else if Ascii.eqb c gt then "&gt;"
  else if Ascii.eqb c lt then "&lt;"
  else if Ascii.eqb c quot then "&quot;"
  else if Ascii.eqb c apos then "&apos;"
  else str1 c.

Fixpoint escape_five (s : string) : string :=
  match s with
  | EmptyString => EmptyString
  | String c s' => escape_five_char c +:+ escape_five s'
  end.

(** *** The reader

    What an XML 1.0 reader ([ET.parse], on expat) makes of the text
    that starts the content of an element.  A character is one of the
    256 first code points. *)

Definition cr : ascii := ascii_of_nat 13.
Definition lf : ascii := ascii_of_nat 10.

(** The production [Char] of XML 1.0: tab, line feed, carriage return and
    everything from the space on. *)
Definition is_Char (c : ascii) : bool :=
  let n := nat_of_ascii c in
  Nat.eqb n 9 || Nat.eqb n 10 || Nat.eqb n 13 || Nat.leb 32 n.

Fixpoint all_Char (s : string) : bool :=
  match s with
  | EmptyString => true
  | String c s' => is_Char c && all_Char s'
  end.

(** The line ends as the reader hands them to its parser (XML 1.0,
    section 2.11): a carriage return in front of a line feed is dropped,
    every other carriage return becomes a line feed. *)
Fixpoint normalize_newlines (s : string) : string :=
  match s with
  | EmptyString => EmptyString
  | String c s' =>
      if Ascii.eqb c cr then
        match s' with
        | String c' _ =>
            if Ascii.eqb c' lf then normalize_newlines s'
            else String lf (normalize_newlines s')
        | EmptyString => String lf EmptyString
        end
      else String c (normalize_newlines s')
  end.

Definition digit_value (hex : bool) (c : ascii) : option N :=
  let n := N_of_ascii c in
  if (48 <=? n)%N && (n <=? 57)%N then Some (n - 48)%N
  else if hex && (97 <=? n)%N && (n <=? 102)%N then Some (n - 87)%N
  else if hex && (65 <=? n)%N && (n <=? 70)%N then Some (n - 55)%N
  else None.

(** The number of a character reference, read up to its [;]: its value
    and the count of the characters read, the [;] among them. *)
Fixpoint char_ref_go (hex : bool) (acc : N) (len : nat) (s : string)
  : option (N * nat) :=
  match s with
  | EmptyString => None
  | String c s' =>
      if Ascii.eqb c ";"%char then
        match len with
        | O => None
        | S _ => Some (acc, S len)
        end
      else
        match digit_value hex c with
        | Some d => char_ref_go hex (acc * (if hex then 16 else 10) + d)%N (S len) s'
        | None => None
        end
  end.

(** [&#N;] and [&#xH;], from the text behind [&#]: the character, and
    the length of the reference behind its [&].  The character has to be
    a [Char]; one beyond the 256 of this development has no value
    here. *)
Definition char_ref (s : string) : option (ascii * nat) :=
  match
    match s with
    | String "x"%char s' => prod_map id S <$> char_ref_go true 0 0 s'
    | _ => char_ref_go false 0 0 s
    end
  with
  | Some (n, k) =>
      if (n <? 256)%N && is_Char (ascii_of_N n)
      then Some (ascii_of_N n, S k)
      else None
  | None => None
  end.

(** The character data in front of the next tag: it ends at the first
    [<]; the five predefined entity references and the character
    references are decoded; any other use of [&], a character that is no
    [Char], and the end of the input before a tag are errors ([None]).
    The result is the decoded text and the rest of the input, which
    starts at the [<]. *)
Fixpoint chardata_go (skip : nat) (s : string) : option (string * string) :=
  match s with
  | EmptyString => None
  | String c s' =>
      match skip with
      | S k => chardata_go k s'
      | O =>
          if Ascii.eqb c lt then Some (EmptyString, s)
          else if Ascii.eqb c amp then
            if String.prefix "&amp;" s
            then prod_map (String amp) id <$> chardata_go 4 s'
            else if String.prefix "&lt;" s
            then prod_map (String lt) id <$> chardata_go 3 s'
            else if String.prefix "&gt;" s
            then prod_map (String gt) id <$> chardata_go 3 s'
            else if String.prefix "&quot;" s
            then prod_map (String quot) id <$> chardata_go 5 s'
            else if String.prefix "&apos;" s
            then prod_map (String apos) id <$> chardata_go 5 s'
            else
              match s' with
              | String "#"%char s'' =>
                  match char_ref s'' with
                  | Some (x, k) => prod_map (String x) id <$> chardata_go k s'
                  | None => None
                  end
              | _ => None
              end
          else if is_Char c then prod_map (String c) id <$> chardata_go 0 s'
          else None
      end
  end.

Definition chardata (s : string) : option (string * string) :=
  chardata_go 0 s.

(** The text that the reader delivers for the content that starts at
    [s]: the line ends are normalized, then the character data is
    parsed. *)
Definition read_text (s : string) : option (string * string) :=
  chardata (normalize_newlines s).

End Sax.


(** ** Dates: [datetime] and [strftime("%Y-%m-%d")] *)

Module DateTime.

(** The calendar fields of a [datetime] object that the script formats. *)
Record datetime := mk_datetime { year : N; month : N; day : N }.


Definition digit (n : N) : ascii := ascii_of_N (48 + n `mod` 10).

(** Decimal digits of [n] in front of [acc], on [fuel] positions at
    most. *)
Fixpoint digits_go (fuel : nat) (n : N) (acc : string) : string :=
  match fuel with
  | O => acc
  | S fuel' =>
      let acc' := String (digit n) acc in
      if (n <? 10)%N then acc' else digits_go fuel' (n `div` 10)%N acc'
  end.

(** [str(n)] for a natural number; a number has no more decimal digits
    than binary ones. *)
Definition decimal (n : N) : string :=
  digits_go (S (N.to_nat (N.log2 n))) n EmptyString.

Fixpoint zeros (k : nat) : string :=
  match k with
  | O => EmptyString
  | S k' => String "0"%char (zeros k')
  end.

(** A number zero-padded on the left to [width] characters, as the
    directives [%m] and [%d] (width 2) print it. *)
Definition zero_pad (width : nat) (n : N) : string :=
  let s := decimal n in
  zeros (width - String.length s) +:+ s.

(** [d.strftime("%Y-%m-%d")].  The directive [%Y] is left to the C
    library: some pad the year to four digits, glibc prints the year as
    it is, so that the year 999 gives ["999"] there ([year_padded] says
    which). *)
Definition strftime_Ymd (year_padded : bool) (d : datetime) : string :=
  (if year_padded then zero_pad 4 (year d) else decimal (year d)) +:+
  "-" +:+ zero_pad 2 (month d) +:+ "-" +:+ zero_pad 2 (day d).



End DateTime.


(** ** Exceptions *)

Inductive Exn :=
  | AttributeError            (* ['NoneType' object has no attribute 'strip'] *)
  | IndexError
  | ParseError                (* [xml.etree.ElementTree.ParseError] *)
  | OSError
  | PermissionError           (* a subclass of [OSError] *)
  | ValueError
  | OverflowError
  | UnicodeDecodeError        (* a subclass of [ValueError] *)
  | SystemExit (code : nat)
  | Exception (cause : Exn).  (* [Exception(f"Failed to replace sitemap.xml: {e}")] *)

Inductive result (A : Type) : Type :=
  | Ok (a : A)
  | Raise (e : Exn).
Arguments Ok {A} a.
Arguments Raise {A} e.

Global Instance result_ret : MRet result := λ A a, Ok a.
Global Instance result_bind : MBind result := λ A B f m,
  match m with
  | Ok a => f a
  | Raise e => Raise e
  end.

(** [except OSError] catches [OSError] and its subclasses. *)
Definition is_OSError (e : Exn) : bool :=
  match e with
  | OSError | PermissionError => true
  | _ => false
  end.

(** [except Exception] catches everything here but [SystemExit]. *)
Definition is_Exception (e : Exn) : bool :=
  match e with
  | SystemExit _ => false
  | _ => true
  end.

(** ** ElementTree *)

Module ET.

#[warnings="-register-all"]
Inductive Element :=
  mk_Element (tag : string) (text : option string) (children : list Element).

Definition tag (e : Element) : string :=
  match e with mk_Element t _ _ => t end.
Definition text (e : Element) : option string :=
  match e with mk_Element _ x _ => x end.
Definition children (e : Element) : list Element :=
  match e with mk_Element _ _ cs => cs end.

Definition NS : string := "http://www.sitemaps.org/schemas/sitemap/0.9".

(** The tag that the path ["sitemap:" ++ name] selects under
    [ns = {"sitemap": NS}]. *)
Definition qname (name : string) : string := "{" +:+ NS +:+ "}" +:+ name.

Definition has_tag (t : string) (e : Element) : bool := String.eqb (tag e) t.

(** [e.find(path)]: the first direct child with the tag. *)
Definition find (t : string) (e : Element) : option Element :=
  List.find (has_tag t) (children e).

(** [e.findall(path)]: the direct children with the tag, in document
    order. *)
Definition findall (t : string) (e : Element) : list Element :=
  List.filter (has_tag t) (children e).

(** [ET.SubElement(parent, t)] followed by [.text = v]: a new last
    child. *)
Definition SubElement (parent : Element) (t : string) (v : string) : Element :=
  mk_Element (tag parent) (text parent)
             (children parent ++ [mk_Element t (Some v) []]).

Fixpoint set_first_text (t v : string) (cs : list Element) : list Element :=
  match cs with
  | [] => []
  | c :: cs' =>
      if has_tag t c
      then mk_Element (tag c) (Some v) (children c) :: cs'
      else c :: set_first_text t v cs'
  end.

(** [parent.find(t).text = v]: the element that [find] returned is a
    child of [parent], so the assignment is seen through [parent]. *)
Definition set_text (parent : Element) (t v : string) : Element :=
  mk_Element (tag parent) (text parent) (set_first_text t v (children parent)).

Definition URL : string := qname "url".
Definition LOC : string := qname "loc".
Definition LASTMOD : string := qname "lastmod".
Definition CHANGEFREQ : string := qname "changefreq".
Definition PRIORITY : string := qname "priority".

(** The reader never stores an empty string: an element without
    character data has the text [None]. *)
Fixpoint texts_nonempty (e : Element) : bool :=
  match e with
  | mk_Element _ x cs =>
      match x with
      | Some s => negb (PyStr.is_empty s)
      | None => true
      end && forallb texts_nonempty cs
  end.

End ET.
Import ET.

(** ** The three tables *)

(** A float literal with one fractional digit; [str] prints such a float
    as it was written. *)
Record pyfloat := mk_float { units : N; tenths : N }.

Definition str_float (f : pyfloat) : string :=
  DateTime.decimal (units f) +:+ "." +:+ DateTime.decimal (tenths f).

Definition ROUTE_TO_FILE : gmap string string :=
  <["/" := "templates/index.html"]> ∅.

(** A key that is written twice keeps the value written last. *)
Definition PRIORITY_MAP : gmap string pyfloat :=
  <["/page_route" := mk_float 0 8]>
    (<["/page_route" := mk_float 0 9]>
       (<["/" := mk_float 1 0]> ∅)).

Definition CHANGEFREQ_MAP : gmap string string :=
  <["/page_route" := "yearly"]>
    (<["/page_route" := "monthly"]>
       (<["/page_route" := "daily"]>
          (<["/page_route" := "weekly"]>
             (<["/" := "weekly"]> ∅)))).

Definition DOMAIN : string := "yourdomainname.com".

(** ** The collaborators *)

(** What [subprocess.run(["git", "log", "-1", "--format=%ci", "--", path],
    capture_output=True, text=True, check=True)] does: it returns with
    the standard output of a command that succeeded, or raises
    [CalledProcessError] for a non-zero exit status, or raises
    [FileNotFoundError] when there is no [git] to run (or no directory
    to run it in). *)
Inductive RunOutcome :=
  | Completed (stdout : string)
  | CalledProcessError
  | FileNotFoundError.

Record World := mk_World {
  project_root : string;
  git_log : string → RunOutcome;
  (** [Path.exists]; [None] is an [OSError]. *)
  path_exists : string → option bool;
  (** [os.path.getmtime]; [None] is an [OSError]. *)
  getmtime : string → option Z;
  (** [datetime.fromtimestamp], in the local time zone. *)
  fromtimestamp : Z → DateTime.datetime;
  (** [datetime.now()] *)
  now : DateTime.datetime;
  (** Whether [strftime] pads [%Y] to four digits (glibc does not). *)
  year_padded : bool;
  (** [ET.parse(path).getroot()] on the content of the file. *)
  ET_parse : string → result Element;
  (** The random part of the name that [NamedTemporaryFile] picks. *)
  tmp_random : string;
  (** Faults of the file operations: creating the temporary file fails;
      the write call with this index fails; the move fails. *)
  create_fault : bool;
  write_fault : option nat;
  move_fault : bool
}.

(** A world is a machine on which git ends in one of the three ways
    above, every modification time is one that [datetime.fromtimestamp]
    converts, and a move that fails has touched nothing.  A machine in
    general can do more:
    - [subprocess.run] can raise an exception that is neither
      [CalledProcessError] nor [FileNotFoundError]: [PermissionError] for
      a git that is there and cannot be executed, [UnicodeDecodeError] for
      an output that does not decode;
    - [datetime.fromtimestamp] can raise: [ValueError] or [OverflowError]
      for a time outside of the years 1 to 9999 or of the range of the
      platform, [OSError] when [localtime] fails;
    - [shutil.move] renames and, when [os.rename] fails, copies the file
      over the destination and removes the source: a move can fail after
      its copy has written something to the destination. *)
Record Machine := mk_Machine {
  world :> World;
  (** The exception of another class that [subprocess.run] raises for
      the file, if any. *)
  git_raises : string → option Exn;
  (** The exception that [datetime.fromtimestamp] raises for the time,
      if any. *)
  fromtimestamp_raises : Z → option Exn;
  (** What a failing move has left at its destination, if it has
      written to it. *)
  move_clobbers : option string
}.

Definition machine_of (w : World) : Machine :=
  {| world := w;
     git_raises := λ _, None;
     fromtimestamp_raises := λ _, None;
     move_clobbers := None |}.
#[warnings="-ambiguous-paths"]
Coercion machine_of : World >-> Machine.

(** [a / b] on paths. *)
Definition path_join (a b : string) : string := a +:+ "/" +:+ b.

Definition sitemap_dir (w : World) : string := path_join (project_root w) "seo".
Definition sitemap_path (w : World) : string := path_join (sitemap_dir w) "sitemap.xml".
Definition tmp_path (w : World) : string :=
  path_join (sitemap_dir w) ("tmp" +:+ tmp_random w +:+ ".xml").

(** ** Printed lines *)

Inductive Msg :=
  | MsgNotFound (sitemap : string)
      (* Error: sitemap.xml not found at {sitemap_path} *)
  | WarnNoMapping (path : string)
      (* Warning: No template mapping for {path}, skipping... *)
  | WarnNotTracked (template_file : string)
      (* Warning: {template_file} not tracked in git, using filesystem date *)
  | MsgUpdated (path : string) (old_date : option string) (lastmod_date source : string)
      (* Updated {path}: {old_date} -> {lastmod_date} ({source}) *)
  | MsgUpToDate (path lastmod_date : string)
      (* {path}: already up to date ({lastmod_date}) *)
  | MsgAdded (path lastmod_date source : string)
      (* Added lastmod for {path}: {lastmod_date} ({source}) *)
  | MsgSuccess (updated_count : nat)
      (* Sitemap updated successfully! ({updated_count} entries modified) *)
  | MsgLocation (sitemap : string)
      (* Location: {sitemap_path} *)
  | MsgBanner (root : string) (use_filesystem : bool)
      (* Updating sitemap.xml... / Project root: ... / Method: ... *)
  | MsgError (e : Exn).
      (* Error updating sitemap: {e}, and the traceback *)

Definition is_warning (m : Msg) : bool :=
  match m with
  | WarnNoMapping _ | WarnNotTracked _ => true
  | _ => false
  end.

(** ** get_git_lastmod *)

(** Lines 48-77.  The result is the pair [(date_string, is_tracked)];
    [is_tracked] is [Some true], [Some false] or [None].  An exception of
    [subprocess.run] that is of neither class of the two handlers leaves
    the function. *)
Definition get_git_lastmod (m : Machine) (file_path : string)
  : result (option string * option bool) :=
  match git_raises m file_path with
  | Some e => Raise e
  | None =>
      match git_log m file_path with
      | Completed stdout =>
          if negb (PyStr.is_empty (PyStr.strip stdout)) then
            match PyStr.split_ws (PyStr.strip stdout) with
            | git_date :: _ => Ok (Some git_date, Some true)
            | [] => Raise IndexError
            end
          else Ok (None, Some false)
      | CalledProcessError => Ok (None, Some false)
      | FileNotFoundError => Ok (None, None)
      end
  end.

(** ** get_file_lastmod *)

(** Lines 80-89.  Both branches of the [try] body and the handler end in
    [strftime("%Y-%m-%d")].  The handler is for [OSError]: another
    exception of [datetime.fromtimestamp] leaves the function. *)
Definition get_file_lastmod (m : Machine) (file_path : string) : result string :=
  let today := Ok (DateTime.strftime_Ymd (year_padded m) (now m)) in
  match path_exists m file_path with
  | Some true =>
      match getmtime m file_path with
      | Some mtime =>
          match fromtimestamp_raises m mtime with
          | None =>
              Ok (DateTime.strftime_Ymd (year_padded m) (fromtimestamp m mtime))
          | Some e => if is_OSError e then today else Raise e
          end
      | None => today
      end
  | Some false => today
  | None => today
  end.

(** ** update_sitemap: the update loop *)

(** The loop threads the counter and the printed lines, and an exception
    ends it with what was counted and printed so far. *)
Record LoopState := mk_LoopState {
  updated_count : nat;
  printed : list Msg
}.

Definition M (A : Type) : Type := LoopState → result A * LoopState.

Global Instance M_ret : MRet M := λ A a st, (Ok a, st).
Global Instance M_bind : MBind M := λ A B f m st,
  match m st with
  | (Ok a, st') => f a st'
  | (Raise e, st') => (Raise e, st')
  end.

Definition lift {A} (r : result A) : M A := λ st, (r, st).

Definition print (m : Msg) : M unit :=
  λ st, (Ok (), mk_LoopState (updated_count st) (printed st ++ [m])).

(** [updated_count += 1] *)
Definition count_one : M unit :=
  λ st, (Ok (), mk_LoopState (S (updated_count st)) (printed st)).

(** Lines 117-120: [Some path], or [None] for the [continue]. *)
Definition extract_path (url_path : string) : result (option string) :=
  if PyStr.contains DOMAIN url_path then
    match PyStr.split DOMAIN url_path with
    | _ :: p :: _ => Ok (Some (PyStr.or_else p "/"))
    | _ => Raise IndexError
    end
  else Ok None.

(** Lines 130-151: the date and the source tag. *)
Definition resolve_lastmod (m : Machine) (use_filesystem : bool)
    (template_file template_path : string) : M (string * string) :=
  if use_filesystem then
    lastmod_date ← lift (get_file_lastmod m template_path);
    mret (lastmod_date, "filesystem")
  else
    '(lastmod_date, is_tracked) ← lift (get_git_lastmod m template_path);
    match lastmod_date with
    | None =>
        match is_tracked with
        | Some false =>
            print (WarnNotTracked template_file);;
            lastmod_date ← lift (get_file_lastmod m template_path);
            mret (lastmod_date, "filesystem (not in git)")
        | None =>
            lastmod_date ← lift (get_file_lastmod m template_path);
            mret (lastmod_date, "filesystem (git unavailable)")
        | Some true =>
            lastmod_date ← lift (get_file_lastmod m template_path);
            mret (lastmod_date, "filesystem")
        end
    | Some d => mret (d, "git")
    end.

(** Lines 153-168. *)
Definition update_lastmod (path lastmod_date source : string)
    (url_elem : Element) : M Element :=
  match find LASTMOD url_elem with
  | Some lastmod_elem =>
      let old_date := text lastmod_elem in
      let url_elem := set_text url_elem LASTMOD lastmod_date in
      if bool_decide (old_date ≠ Some lastmod_date)
      then print (MsgUpdated path old_date lastmod_date source);;
           count_one;;
           mret url_elem
      else print (MsgUpToDate path lastmod_date);;
           mret url_elem
  | None =>
      let url_elem := SubElement url_elem LASTMOD lastmod_date in
      print (MsgAdded path lastmod_date source);;
      count_one;;
      mret url_elem
  end.

(** Lines 171-178 and 180-187: the same shape for the two tables, with
    the text that the table gives for the path, if any. *)
Definition update_from_table (t : string) (configured : option string)
    (url_elem : Element) : M Element :=
  match find t url_elem, configured with
  | None, Some v => count_one;; mret (SubElement url_elem t v)
  | Some _, Some v => mret (set_text url_elem t v)
  | _, None => mret url_elem
  end.

(** Lines 111-187: one iteration of the loop. *)
Definition process_url (m : Machine) (use_filesystem : bool)
    (url_elem : Element) : M Element :=
  match find LOC url_elem with
  | None => mret url_elem
  | Some loc_elem =>
      match text loc_elem with
      | None => lift (Raise AttributeError)
      | Some loc_text =>
          let url_path := PyStr.strip loc_text in
          extracted ← lift (extract_path url_path);
          match extracted with
          | None => mret url_elem
          | Some path =>
              match ROUTE_TO_FILE !! path with
              | Some template_file =>
                  if PyStr.is_empty template_file
                  then print (WarnNoMapping path);; mret url_elem
                  else
                    let template_path := path_join (project_root m) template_file in
                    '(lastmod_date, source) ←
                      resolve_lastmod m use_filesystem template_file template_path;
                    url_elem ← update_lastmod path lastmod_date source url_elem;
                    url_elem ← update_from_table
                                 PRIORITY (str_float <$> PRIORITY_MAP !! path) url_elem;
                    update_from_table CHANGEFREQ (CHANGEFREQ_MAP !! path) url_elem
              | None => print (WarnNoMapping path);; mret url_elem
              end
          end
      end
  end.

(** Lines 110-187: the loop over [root.findall("sitemap:url", ns)].  The
    elements are changed in place, so the children of the root that are
    no [url] elements stay as they are and keep their positions. *)
Fixpoint update_loop (m : Machine) (use_filesystem : bool)
    (cs : list Element) : M (list Element) :=
  match cs with
  | [] => mret []
  | c :: cs' =>
      if has_tag URL c then
        c' ← process_url m use_filesystem c;
        cs'' ← update_loop m use_filesystem cs';
        mret (c' :: cs'')
      else
        cs'' ← update_loop m use_filesystem cs';
        mret (c :: cs'')
  end.

(** ** update_sitemap: serialization *)

Definition nl : string := String (ascii_of_nat 10) EmptyString.
Definition dq : string := Sax.str1 Sax.quot.

(** The four local variables of lines 213-216. *)
Record UrlTexts := mk_UrlTexts {
  loc_text : string;
  lastmod_text : option string;
  changefreq_text : option string;
  priority_text : option string
}.

(** [saxutils.escape(e.text) if e is not None and e.text else None] *)
Definition escaped_text (e : option Element) : option string :=
  match e with
  | Some e =>
      if PyStr.truthy (text e)
      then Some (Sax.escape (default EmptyString (text e)))
      else None
  | None => None
  end.

(** Lines 204-216, for an element that has a [loc] child. *)
Definition url_texts (url_elem : Element) : option UrlTexts :=
  let loc_elem := find LOC url_elem in
  let lastmod_elem := find LASTMOD url_elem in
  let changefreq_elem := find CHANGEFREQ url_elem in
  let priority_elem := find PRIORITY url_elem in
  match loc_elem with
  | None => None
  | Some loc_elem =>
      Some (mk_UrlTexts
              (if PyStr.truthy (text loc_elem)
               then Sax.escape (default EmptyString (text loc_elem))
               else EmptyString)
              (escaped_text lastmod_elem)
              (escaped_text changefreq_elem)
              (escaped_text priority_elem))
  end.

(** [if v: tmpfile.write(f'        <name>{v}</name>\n')] *)
Definition optional_line (name : string) (v : option string) : list string :=
  if PyStr.truthy v
  then ["        <" +:+ name +:+ ">" +:+ default EmptyString v +:+
        "</" +:+ name +:+ ">" +:+ nl]
  else [].

(** Lines 218-226: the write calls for one entry. *)
Definition url_block (t : UrlTexts) : list string :=
  ["    <url>" +:+ nl;
   "        <loc>" +:+ loc_text t +:+ "</loc>" +:+ nl] ++
  optional_line "lastmod" (lastmod_text t) ++
  optional_line "changefreq" (changefreq_text t) ++
  optional_line "priority" (priority_text t) ++
  ["    </url>" +:+ nl].

(** Lines 203-226: the write calls of the loop, in order. *)
Fixpoint url_writes (urls : list Element) : list string :=
  match urls with
  | [] => []
  | url_elem :: urls' =>
      match url_texts url_elem with
      | None => url_writes urls'
      | Some t => url_block t ++ url_writes urls'
      end
  end.

(** Lines 200-228: every write call on the temporary file. *)
Definition writes (root : Element) : list string :=
  ["<?xml version=" +:+ dq +:+ "1.0" +:+ dq +:+ " encoding=" +:+ dq +:+
   "UTF-8" +:+ dq +:+ "?>" +:+ nl;
   "<urlset xmlns=" +:+ dq +:+ NS +:+ dq +:+ ">" +:+ nl] ++
  url_writes (findall URL root) ++
  ["</urlset>" +:+ nl].

Definition concat_str (l : list string) : string :=
  foldr String.app EmptyString l.

(** ** update_sitemap: the whole function *)

(** The files of the machine: path to content. *)
Record Outcome := mk_Outcome {
  files : gmap string string;
  stdout : list Msg;
  returned : result unit
}.

(** Lines 189-228: the [with NamedTemporaryFile(..., delete=False)] block.
    The file is created; the write calls follow one another, and a
    failing one ends the block with its exception.  The file is closed
    on the way out and, with [delete=False], stays where it is. *)
Definition write_tmp (m : Machine) (fs : gmap string string) (root : Element)
  : gmap string string * result unit :=
  if create_fault m then (fs, Raise OSError)
  else
    match write_fault m with
    | Some k =>
        if bool_decide (k < length (writes root))
        then (<[tmp_path m := concat_str (take k (writes root))]> fs, Raise OSError)
        else (<[tmp_path m := concat_str (writes root)]> fs, Ok ())
    | None => (<[tmp_path m := concat_str (writes root)]> fs, Ok ())
    end.

(** [shutil.move(src, dst)] between two files of one directory: the
    file at [src] takes the place of the one at [dst].  A move that
    fails raises; the source is still there, and the destination is as it
    was unless the copy that follows a failed [os.rename] has written to
    it ([move_clobbers]). *)
Definition shutil_move (m : Machine) (fs : gmap string string) (src dst : string)
  : gmap string string * result unit :=
  if move_fault m then
    (match move_clobbers m with
     | Some written => <[dst := written]> fs
     | None => fs
     end, Raise OSError)
  else
    match fs !! src with
    | Some content => (<[dst := content]> (delete src fs), Ok ())
    | None => (fs, Raise OSError)
    end.

(** Lines 231-239: the move and its handler; the [unlink] of the
    handler is taken to succeed. *)
Definition replace_sitemap (m : Machine) (fs : gmap string string)
    (updated_count : nat) : gmap string string * list Msg * result unit :=
  match shutil_move m fs (tmp_path m) (sitemap_path m) with
  | (fs, Ok _) =>
      (fs, [MsgSuccess updated_count; MsgLocation (sitemap_path m)], Ok ())
  | (fs, Raise e) =>
      let fs := if bool_decide (is_Some (fs !! tmp_path m))
                then delete (tmp_path m) fs else fs in
      (fs, [], Raise (Exception e))
  end.

(** Lines 92-239. *)
Definition update_sitemap (m : Machine) (use_filesystem : bool)
    (fs : gmap string string) : Outcome :=
  match fs !! sitemap_path m with
  | None => mk_Outcome fs [MsgNotFound (sitemap_path m)] (Raise (SystemExit 1))
  | Some content =>
      match ET_parse m content with
      | Raise e => mk_Outcome fs [] (Raise e)
      | Ok root =>
          match update_loop m use_filesystem (children root) (mk_LoopState 0 []) with
          | (Raise e, st) => mk_Outcome fs (printed st) (Raise e)
          | (Ok cs, st) =>
              let root := mk_Element (tag root) (text root) cs in
              match write_tmp m fs root with
              | (fs, Raise e) => mk_Outcome fs (printed st) (Raise e)
              | (fs, Ok _) =>
                  let '(fs, out, r) := replace_sitemap m fs (updated_count st) in
                  mk_Outcome fs (printed st ++ out) r
              end
          end
      end
  end.

(** ** main *)

(** Lines 270-280: the exit status of the process. *)
Definition main (m : Machine) (use_filesystem : bool) (fs : gmap string string)
  : gmap string string * list Msg * nat :=
  let banner := MsgBanner (project_root m) use_filesystem in
  let o := update_sitemap m use_filesystem fs in
  match returned o with
  | Ok _ => (files o, banner :: stdout o, 0)
  | Raise e =>
      if is_Exception e
      then (files o, banner :: stdout o ++ [MsgError e], 1)
      else (files o, banner :: stdout o,
            match e with SystemExit code => code | _ => 1 end)
  end.

(** ** Definitions used by the statements *)

(** What [replace] of the one-character string [c] makes of the
    character [x]. *)
Definition subst_char (c : ascii) (new : string) (x : ascii) : string :=
  if Ascii.eqb x c then new else String x EmptyString.

(** A string rewritten character by character. *)
Fixpoint flat_map_str (f : ascii → string) (s : string) : string :=
  match s with
  | EmptyString => EmptyString
  | String c s' => f c +:+ flat_map_str f s'
  end.

(** An entry whose [loc] holds both kinds of quotes. *)
Definition quoted_value : string :=
  "https://yourdomainname.com/?q=" +:+ dq +:+ "it's" +:+ dq.

Definition quoted_entry : Element :=
  mk_Element URL None [mk_Element LOC (Some quoted_value) []].

(** The no-break space. *)
Definition nbsp : string := String (ascii_of_nat 160) EmptyString.

(** A git answer as the [%ci] format prints it. *)
Definition commit_line : string := "2025-01-15 09:00:00 +0000" +:+ nl.

(** *** Sample worlds and documents *)

Definition sample_root : Element :=
  mk_Element (qname "urlset") None
    [mk_Element URL None
       [mk_Element LOC (Some "https://yourdomainname.com/") []]].

(** A machine where git answers [run] for every file, the template has
    the modification time [mtime], and the file operations have the
    given faults. *)
Definition sample_world (run : RunOutcome) (present : option bool)
    (mtime : option Z) (wf : option nat) (mf : bool) : World :=
  {| project_root := "/srv/site";
     git_log := λ _, run;
     path_exists := λ _, present;
     getmtime := λ _, mtime;
     fromtimestamp := λ t,
       if bool_decide (t = 1736931600%Z)
       then DateTime.mk_datetime 2025 1 15
       else DateTime.mk_datetime 1970 1 1;
     now := DateTime.mk_datetime 2026 11 4;
     year_padded := false;
     ET_parse := λ _, Ok sample_root;
     tmp_random := "k3x0_q7a";
     create_fault := false;
     write_fault := wf;
     move_fault := mf |}.

(** A machine where git is there and cannot be executed:
    [subprocess.run] raises [PermissionError]. *)
Definition unexecutable_git : Machine :=
  {| world := sample_world FileNotFoundError (Some true) (Some 1736931600%Z)
                           None false;
     git_raises := λ _, Some PermissionError;
     fromtimestamp_raises := λ _, None;
     move_clobbers := None |}.

(** A machine where the move fails after its copy has written the
    first bytes of the new file to the sitemap. *)
Definition clobbering_move : Machine :=
  {| world := sample_world (Completed commit_line) (Some true)
                           (Some 1736931600%Z) None true;
     git_raises := λ _, None;
     fromtimestamp_raises := λ _, None;
     move_clobbers := Some "<?xml version=" |}.

Definition sample_files : gmap string string :=
  <["/srv/site/seo/sitemap.xml" := "<urlset/>"]> ∅.






(** Git knows nothing of the file: the command failed, or printed no
    token. *)
Definition untracked (w : World) (file_path : string) : Prop :=
  git_log w file_path = CalledProcessError ∨
  ∃ out, git_log w file_path = Completed out ∧ PyStr.split_ws out = [].

(** *** The effect of one iteration, written without the monad *)

(** The entry after lines 153-168. *)
Definition lastmod_result (lastmod_date : string) (u : Element) : Element :=
  match find LASTMOD u with
  | Some _ => set_text u LASTMOD lastmod_date
  | None => SubElement u LASTMOD lastmod_date
  end.

(** What lines 153-168 add to the counter: one for a created [lastmod],
    one for a [lastmod] whose old text is not the new date. *)
Definition lastmod_increment (lastmod_date : string) (u : Element) : nat :=
  match find LASTMOD u with
  | Some e => if bool_decide (text e = Some lastmod_date) then 0 else 1
  | None => 1
  end.

(** The entry after lines 171-178, or 180-187. *)
Definition table_result (t : string) (configured : option string)
    (u : Element) : Element :=
  match configured with
  | Some v =>
      match find t u with
      | Some _ => set_text u t v
      | None => SubElement u t v
      end
  | None => u
  end.

(** What these lines add to the counter: one for a created child,
    nothing for an overwritten one. *)
Definition table_increment (t : string) (configured : option string)
    (u : Element) : nat :=
  match configured, find t u with
  | Some _, None => 1
  | _, _ => 0
  end.

(** Lines 128-187, for an entry whose path the route table maps to the
    non-empty [template_file]. *)
Definition mapped_steps (m : Machine) (use_filesystem : bool)
    (path template_file : string) (url_elem : Element) : M Element :=
  let template_path := path_join (project_root m) template_file in
  '(lastmod_date, source) ←
    resolve_lastmod m use_filesystem template_file template_path;
  url_elem ← update_lastmod path lastmod_date source url_elem;
  url_elem ← update_from_table
               PRIORITY (str_float <$> PRIORITY_MAP !! path) url_elem;
  update_from_table CHANGEFREQ (CHANGEFREQ_MAP !! path) url_elem.

(** A state with more lines printed and more updates counted. *)
Definition advance (n : nat) (msgs : list Msg) (st : LoopState) : LoopState :=
  mk_LoopState (updated_count st + n) (printed st ++ msgs).

(** The entry of the first scenario, before and after the run. *)
Definition root_entry : Element :=
  mk_Element URL None [mk_Element LOC (Some "https://yourdomainname.com/") []].

Definition root_entry_updated : Element :=
  mk_Element URL None
    [mk_Element LOC (Some "https://yourdomainname.com/") [];
     mk_Element LASTMOD (Some "2025-01-15") [];
     mk_Element PRIORITY (Some "1.0") [];
     mk_Element CHANGEFREQ (Some "weekly") []].

(** The entry of the root with a no-break space behind its [loc], which
    [strip] removes, before and after the run. *)
Definition nbsp_entry : Element :=
  mk_Element URL None
    [mk_Element LOC (Some ("https://yourdomainname.com/" +:+ nbsp)) []].

Definition nbsp_entry_updated : Element :=
  mk_Element URL None
    [mk_Element LOC (Some ("https://yourdomainname.com/" +:+ nbsp)) [];
     mk_Element LASTMOD (Some "2025-01-15") [];
     mk_Element PRIORITY (Some "1.0") [];
     mk_Element CHANGEFREQ (Some "weekly") []].

(** An entry with an old [lastmod] and a [priority] of its own. *)
Definition stale_entry : Element :=
  mk_Element URL None
    [mk_Element LOC (Some "https://yourdomainname.com/") [];
     mk_Element LASTMOD (Some "2024-06-30") [];
     mk_Element PRIORITY (Some "0.5") []].

(** A machine where git knows the template. *)
Definition git_world : World :=
  sample_world (Completed commit_line) (Some true) (Some 1736931600%Z) None false.

(** A document whose second entry has an empty [loc] element, and one
    whose second entry has no [loc] at all. *)
Definition empty_loc_root : Element :=
  mk_Element (qname "urlset") None
    [root_entry; mk_Element URL None [mk_Element LOC None []]].

Definition missing_loc_root : Element :=
  mk_Element (qname "urlset") None
    [root_entry; mk_Element URL None [mk_Element LASTMOD (Some "2024-06-30") []]].

(** [git_world] with another document in the sitemap file. *)
Definition with_root (root : Element) (w : World) : World :=
  {| project_root := project_root w;
     git_log := git_log w;
     path_exists := path_exists w;
     getmtime := getmtime w;
     fromtimestamp := fromtimestamp w;
     now := now w;
     year_padded := year_padded w;
     ET_parse := λ _, Ok root;
     tmp_random := tmp_random w;
     create_fault := create_fault w;
     write_fault := write_fault w;
     move_fault := move_fault w |}.

(** The [loc] values of a document, in document order: one for each
    [url] element that has a [loc] child with text. *)
Definition input_locs (root : Element) : list string :=
  omap (λ u, find LOC u ≫= text) (findall URL root).

(** The XML reader of the world keeps the rule of [texts_nonempty]. *)
Definition reader_ok (w : World) : Prop :=
  ∀ content root, ET_parse w content = Ok root → texts_nonempty root = true.

(** What an iteration keeps of an entry [c] in the entry [c'] it leaves. *)
Definition kept (c c' : Element) : Prop :=
  tag c' = tag c ∧ find LOC c' = find LOC c ∧
  (has_tag URL c = true → ∀ l, find LOC c = Some l → text l ≠ None).

(** A document with three entries: an unmapped page with characters to
    escape, the root page, and a page of another site. *)
Definition three_root : Element :=
  mk_Element (qname "urlset") None
    [mk_Element URL None
       [mk_Element LOC (Some "https://yourdomainname.com/a?x=1&y=<2>") [];
        mk_Element LASTMOD None []];
     stale_entry;
     mk_Element URL None [mk_Element LOC (Some "https://example.org/") []]].

(** [git_world], but the fourth write call on the temporary file fails
    (the disk is full, say). *)
Definition write_fault_world : World :=
  sample_world (Completed commit_line) (Some true) (Some 1736931600%Z)
               (Some 3) false.

(** [git_world], but the move fails. *)
Definition move_fault_world : World :=
  sample_world (Completed commit_line) (Some true) (Some 1736931600%Z)
               None true.

(** The first three write calls of a run: the declaration, the opening
    tag of the root and the opening tag of the first entry. *)
Definition first_three_writes : string :=
  "<?xml version=" +:+ dq +:+ "1.0" +:+ dq +:+ " encoding=" +:+ dq +:+
  "UTF-8" +:+ dq +:+ "?>" +:+ nl +:+
  "<urlset xmlns=" +:+ dq +:+ NS +:+ dq +:+ ">" +:+ nl +:+
  "    <url>" +:+ nl.

(** *** Slices and membership, for the statements on paths and escaping *)

(** [s[:n]] *)
Fixpoint str_take (n : nat) (s : string) : string :=
  match n, s with
  | S n', String c s' => String c (str_take n' s')
  | _, _ => EmptyString
  end.

(** [s[n:]] *)
Fixpoint str_drop (n : nat) (s : string) : string :=
  match n, s with
  | S n', String _ s' => str_drop n' s'
  | _, _ => s
  end.

(** The text in front of the first occurrence of [sep], the whole text
    when there is none. *)
Definition until_next (sep s : string) : string :=
  match PyStr.find sep s with
  | Some m => str_take m s
  | None => s
  end.

(** [c in s] for a character. *)
Fixpoint str_mem (c : ascii) (s : string) : bool :=
  match s with
  | EmptyString => false
  | String x s' => Ascii.eqb x c || str_mem c s'
  end.

(** No character of the text is whitespace. *)
Fixpoint no_space (s : string) : bool :=
  match s with
  | EmptyString => true
  | String c s' => negb (PyStr.isspace c) && no_space s'
  end.

(** *** The three updates of a mapped entry, taken together *)

(** The entry after lines 153-187, for the date [d]. *)
Definition steps_result (path d : string) (u : Element) : Element :=
  table_result CHANGEFREQ (CHANGEFREQ_MAP !! path)
    (table_result PRIORITY (str_float <$> PRIORITY_MAP !! path)
       (lastmod_result d u)).

(** What lines 153-187 add to the counter, for the date [d]. *)
Definition steps_increment (path d : string) (u : Element) : nat :=
  lastmod_increment d u
  + table_increment PRIORITY (str_float <$> PRIORITY_MAP !! path) u
  + table_increment CHANGEFREQ (CHANGEFREQ_MAP !! path) u.

(** The text of the first child with a tag. *)
Definition child_text (t : string) (u : Element) : option string :=
  find t u ≫= text.

(** *** The output as the specification describes it *)

(** A [UrlEntry]: the [loc] and the three optional values. *)
Record UrlEntry := mk_UrlEntry {
  entry_loc : string;
  entry_lastmod : option string;
  entry_changefreq : option string;
  entry_priority : option string
}.

(** The value of an optional field: the text of the child, when there is
    one and it is not empty. *)
Definition field_value (t : string) (u : Element) : option string :=
  match child_text t u with
  | Some v => if PyStr.is_empty v then None else Some v
  | None => None
  end.

(** The entry that a [url] element with a [loc] child stands for. *)
Definition entry_of (u : Element) : option UrlEntry :=
  match find LOC u with
  | Some l =>
      Some (mk_UrlEntry (default EmptyString (text l))
                        (field_value LASTMOD u)
                        (field_value CHANGEFREQ u)
                        (field_value PRIORITY u))
  | None => None
  end.

(** The entries among the children of a root, in document order. *)
Definition entries_of (cs : list Element) : list UrlEntry :=
  omap entry_of (List.filter (has_tag URL) cs).

(** The optional fields of an entry, each under the tag of its child. *)
Definition entry_fields : list (string * (UrlEntry → option string)) :=
  [(LASTMOD, entry_lastmod);
   (CHANGEFREQ, entry_changefreq);
   (PRIORITY, entry_priority)].

(** [loc] is there and not empty, and no optional value is empty. *)
Definition entry_wellformed (e : UrlEntry) : Prop :=
  entry_loc e ≠ EmptyString ∧
  ∀ tg get, In (tg, get) entry_fields → get e ≠ Some EmptyString.

(** A value as character data: [&], [<] and [>] as entity references,
    every other character as it is. *)
Definition xml_text (v : string) : string := flat_map_str Sax.escape_char v.

(** The line of a child element of an entry. *)
Definition xml_line (name v : string) : string :=
  "        <" +:+ name +:+ ">" +:+ xml_text v +:+ "</" +:+ name +:+ ">" +:+ nl.

(** The line of an optional child: none without a value. *)
Definition xml_optional (name : string) (v : option string) : string :=
  match v with
  | Some v => xml_line name v
  | None => EmptyString
  end.

(** One [<url>] block: [loc] always, the others when they have a
    value. *)
Definition render_entry (e : UrlEntry) : string :=
  "    <url>" +:+ nl +:+
  xml_line "loc" (entry_loc e) +:+
  xml_optional "lastmod" (entry_lastmod e) +:+
  xml_optional "changefreq" (entry_changefreq e) +:+
  xml_optional "priority" (entry_priority e) +:+
  "    </url>" +:+ nl.

(** The document: the declaration, the root with the namespace, one
    block for each entry in the order of the list. *)
Definition render_document (es : list UrlEntry) : string :=
  "<?xml version=" +:+ dq +:+ "1.0" +:+ dq +:+ " encoding=" +:+ dq +:+
  "UTF-8" +:+ dq +:+ "?>" +:+ nl +:+
  "<urlset xmlns=" +:+ dq +:+ NS +:+ dq +:+ ">" +:+ nl +:+
  concat_str (render_entry <$> es) +:+
  "</urlset>" +:+ nl.

(** The four children that are serialized, each with the name that is
    written. *)
Definition serialized_fields : list (string * string) :=
  [(LOC, "loc"); (LASTMOD, "lastmod");
   (CHANGEFREQ, "changefreq"); (PRIORITY, "priority")].

(** A document with the entry [quoted_entry]. *)
Definition quoted_root : Element :=
  mk_Element (qname "urlset") None [quoted_entry].

(** A value with a carriage return in it, as a reader delivers it for
    the character reference [&#13;]. *)
Definition two_lines : string := "a" +:+ Sax.str1 Sax.cr +:+ "b".

(** A token of [split()]: not empty, and without whitespace. *)
Definition is_token (t : string) : bool :=
  negb (PyStr.is_empty t) && no_space t.

(** The block that is written for an entry of the root route with the
    [loc] value [s] and the date [d]. *)
Definition root_block (s d : string) : list string :=
  ["    <url>" +:+ nl;
   "        <loc>" +:+ Sax.escape s +:+ "</loc>" +:+ nl;
   "        <lastmod>" +:+ Sax.escape d +:+ "</lastmod>" +:+ nl;
   "        <changefreq>weekly</changefreq>" +:+ nl;
   "        <priority>1.0</priority>" +:+ nl;
   "    </url>" +:+ nl].


(** What the loop keeps of a child [c] of the root in the child [c'] at
    the same place: its tag, its text and its [loc]; the tags of its own
    children, in their order, with new ones behind them only; and all of
    it when it is no [url] element. *)
Definition same_place (c c' : Element) : Prop :=
  tag c' = tag c ∧ text c' = text c ∧ find LOC c' = find LOC c ∧
  (∃ added, tag <$> children c' = (tag <$> children c) ++ added) ∧
  (has_tag URL c = false → c' = c).


(** * Properties *)

(** The world of the machine of a world is that world. *)
Ltac to_world :=
  repeat match goal with
         | |- context [world (machine_of ?w)] =>
             change (world (machine_of w)) with w
         | H : context [world (machine_of ?w)] |- _ =>
             change (world (machine_of w)) with w in H
         end.

(** ** Strings *)

Section string_lemmas.

Lemma app_cons_str (x : ascii) (a b : string) :
  String x a +:+ b = String x (a +:+ b).
Proof. done. Qed.

Lemma app_nil_l_str (s : string) : EmptyString +:+ s = s.
Proof. done. Qed.

Lemma app_nil_r_str (s : string) : s +:+ EmptyString = s.
Proof. induction s as [|c s IH]; [done|]. by rewrite app_cons_str, IH. Qed.

Lemma app_assoc_str (a b c : string) : (a +:+ b) +:+ c = a +:+ (b +:+ c).
Proof. induction a as [|x a IH]; [done|]. by rewrite !app_cons_str, IH. Qed.

Lemma prefix_nil (s : string) : String.prefix EmptyString s = true.
Proof. by destruct s. Qed.

Lemma prefix_char (c x : ascii) (s : string) :
  String.prefix (String c EmptyString) (String x s) = Ascii.eqb x c.
Proof.
  cbn. destruct (ascii_dec c x) as [->|Hne].
  - by rewrite prefix_nil, Ascii.eqb_refl.
  - symmetry. apply Ascii.eqb_neq. congruence.
Qed.

Lemma prefix_app (a s : string) : String.prefix a (a +:+ s) = true.
Proof.
  induction a as [|x a IH]; [apply prefix_nil|].
  rewrite app_cons_str. cbn. by destruct (ascii_dec x x).
Qed.

Lemma is_empty_true (s : string) : PyStr.is_empty s = true ↔ s = EmptyString.
Proof. by destruct s. Qed.

Lemma is_empty_app (a b : string) :
  PyStr.is_empty (a +:+ b) = PyStr.is_empty a && PyStr.is_empty b.
Proof. by destruct a. Qed.

Lemma str_mem_app (c : ascii) (a b : string) :
  str_mem c (a +:+ b) = str_mem c a || str_mem c b.
Proof.
  induction a as [|x a IH]; [done|].
  rewrite app_cons_str. cbn [str_mem]. by rewrite IH, orb_assoc.
Qed.

Lemma concat_str_app (a b : list string) :
  concat_str (a ++ b) = concat_str a +:+ concat_str b.
Proof.
  induction a as [|x a IH]; [done|]. cbn [app concat_str foldr].
  fold (concat_str (a ++ b)). fold (concat_str a).
  by rewrite IH, app_assoc_str.
Qed.

(** A write call is a part of the file. *)
Lemma concat_str_In (x : string) (l : list string) :
  In x l → ∃ before after, concat_str l = before +:+ x +:+ after.
Proof.
  intros (l1 & l2 & ->)%in_split. exists (concat_str l1), (concat_str l2).
  by rewrite concat_str_app.
Qed.

(** *** [replace] of a single character *)

Lemma replace_char_cons (c : ascii) (new : string) (x : ascii) (s : string) :
  PyStr.replace (String c EmptyString) new (String x s) =
  subst_char c new x +:+ PyStr.replace (String c EmptyString) new s.
Proof.
  unfold PyStr.replace, subst_char.
  change (PyStr.replace_go (String c EmptyString) new 0 (String x s))
    with (if String.prefix (String c EmptyString) (String x s)
          then new +:+ PyStr.replace_go (String c EmptyString) new 0 s
          else String x (PyStr.replace_go (String c EmptyString) new 0 s)).
  rewrite prefix_char. by destruct (Ascii.eqb x c).
Qed.

Lemma replace_char_app (c : ascii) (new a b : string) :
  PyStr.replace (String c EmptyString) new (a +:+ b) =
  PyStr.replace (String c EmptyString) new a +:+
  PyStr.replace (String c EmptyString) new b.
Proof.
  induction a as [|x a IH]; [done|].
  rewrite app_cons_str, !replace_char_cons, IH. by rewrite app_assoc_str.
Qed.

End string_lemmas.

(** ** Escaping *)

Section escaping.

Lemma escape_cons (c : ascii) (s : string) :
  Sax.escape (String c s) = Sax.escape_char c +:+ Sax.escape s.
Proof.
  unfold Sax.escape.
  change "&" with (String Sax.amp EmptyString).
  change ">" with (String Sax.gt EmptyString).
  change "<" with (String Sax.lt EmptyString).
  rewrite replace_char_cons, !replace_char_app. f_equal.
  unfold subst_char, Sax.escape_char.
  destruct (Ascii.eqb c Sax.amp) eqn:Ha; [done|].
  rewrite replace_char_cons. unfold subst_char.
  destruct (Ascii.eqb c Sax.gt) eqn:Hg; [done|].
  change (PyStr.replace (String Sax.gt EmptyString) "&gt;" EmptyString)
    with EmptyString.
  rewrite app_nil_r_str, replace_char_cons. unfold subst_char.
  by destruct (Ascii.eqb c Sax.lt).
Qed.

Lemma escape_flat_map (s : string) :
  Sax.escape s = flat_map_str Sax.escape_char s.
Proof.
  induction s as [|c s IH]; [done|]. rewrite escape_cons, IH. done.
Qed.

Lemma escape_char_nonempty (c : ascii) :
  PyStr.is_empty (Sax.escape_char c) = false.
Proof.
  unfold Sax.escape_char.
  by repeat match goal with |- context [if ?b then _ else _] => destruct b end.
Qed.

Lemma escape_is_empty (s : string) :
  PyStr.is_empty (Sax.escape s) = PyStr.is_empty s.
Proof.
  destruct s as [|c s]; [done|].
  by rewrite escape_cons, is_empty_app, escape_char_nonempty.
Qed.

Local Ltac entity_case :=
  rewrite !app_cons_str, app_nil_l_str; cbn [Sax.chardata_go]; simpl;
  rewrite ?prefix_nil; reflexivity.

Lemma chardata_escape_char (c : ascii) (s : string) (r : option (string * string)) :
  Sax.is_Char c = true →
  Sax.chardata_go 0 s = r →
  Sax.chardata_go 0 (Sax.escape_char c +:+ s) = prod_map (String c) id <$> r.
Proof.
  intros Hc <-. unfold Sax.escape_char.
  destruct (Ascii.eqb c Sax.amp) eqn:Ha.
  { apply Ascii.eqb_eq in Ha as ->. entity_case. }
  destruct (Ascii.eqb c Sax.gt) eqn:Hg.
  { apply Ascii.eqb_eq in Hg as ->. entity_case. }
  destruct (Ascii.eqb c Sax.lt) eqn:Hl.
  { apply Ascii.eqb_eq in Hl as ->. entity_case. }
  unfold Sax.str1. rewrite app_cons_str, app_nil_l_str. cbn [Sax.chardata_go].
  by rewrite Hl, Ha, Hc.
Qed.

(** The parser gets back what was escaped, whatever follows the tag
    that ends the text. *)
Lemma chardata_escape (s rest : string) :
  Sax.all_Char s = true →
  Sax.chardata (Sax.escape s +:+ String Sax.lt rest) = Some (s, String Sax.lt rest).
Proof.
  unfold Sax.chardata. induction s as [|c s IH]; [done|].
  cbn [Sax.all_Char]. intros [Hc Hs]%andb_prop.
  rewrite escape_cons, app_assoc_str.
  rewrite (chardata_escape_char c _ _ Hc (IH Hs)). done.
Qed.

(** Two characters are written alike only when they are the same. *)
Lemma escape_char_app_inj (c d : ascii) (a b : string) :
  Sax.escape_char c +:+ a = Sax.escape_char d +:+ b → c = d ∧ a = b.
Proof.
  unfold Sax.escape_char, Sax.str1.
  destruct (Ascii.eqb c Sax.amp) eqn:Ca;
    [|destruct (Ascii.eqb c Sax.gt) eqn:Cg;
      [|destruct (Ascii.eqb c Sax.lt) eqn:Cl]];
  (destruct (Ascii.eqb d Sax.amp) eqn:Da;
    [|destruct (Ascii.eqb d Sax.gt) eqn:Dg;
      [|destruct (Ascii.eqb d Sax.lt) eqn:Dl]]);
  rewrite ?Ascii.eqb_eq, ?Ascii.eqb_neq in *;
  rewrite ?app_cons_str, ?app_nil_l_str;
  intros H; simplify_eq; done.
Qed.

Lemma escape_inj (a b : string) : Sax.escape a = Sax.escape b → a = b.
Proof.
  revert b. induction a as [|c a IH]; intros [|d b]; rewrite ?escape_cons.
  - done.
  - intros H. apply (f_equal PyStr.is_empty) in H.
    by rewrite is_empty_app, escape_char_nonempty in H.
  - intros H. apply (f_equal PyStr.is_empty) in H.
    by rewrite is_empty_app, escape_char_nonempty in H.
  - intros [-> H]%escape_char_app_inj. by rewrite (IH b H).
Qed.

(** *** Line ends *)

Lemma normalize_app (a s : string) :
  str_mem Sax.cr a = false →
  Sax.normalize_newlines (a +:+ s) = a +:+ Sax.normalize_newlines s.
Proof.
  induction a as [|c a IH]; [done|]. cbn [str_mem].
  intros [Hc Ha]%orb_false_elim. rewrite !app_cons_str.
  cbn [Sax.normalize_newlines]. by rewrite Hc, IH.
Qed.

Lemma str_mem_flat_map (x : ascii) (f : ascii → string) (s : string) :
  (∀ c, Ascii.eqb c x = false → str_mem x (f c) = false) →
  str_mem x s = false → str_mem x (flat_map_str f s) = false.
Proof.
  intros Hf. induction s as [|c s IH]; [done|]. cbn [str_mem flat_map_str].
  intros [Hc Hs]%orb_false_elim.
  rewrite str_mem_app, (Hf c Hc), IH; done.
Qed.

Lemma escape_char_no_cr (c : ascii) :
  Ascii.eqb c Sax.cr = false → str_mem Sax.cr (Sax.escape_char c) = false.
Proof.
  intros Hc. unfold Sax.escape_char.
  repeat match goal with
         | |- context [if ?b then _ else _] => destruct b
         end; try done.
  cbn. by rewrite Hc.
Qed.

Lemma normalize_escape (v s : string) :
  str_mem Sax.cr v = false →
  Sax.normalize_newlines (flat_map_str Sax.escape_char v +:+ s)
    = flat_map_str Sax.escape_char v +:+ Sax.normalize_newlines s.
Proof.
  intros Hv. apply normalize_app.
  by apply str_mem_flat_map; [apply escape_char_no_cr|].
Qed.

End escaping.

Section serialized_text.

Lemma truthy_Some (v : string) : v ≠ EmptyString → PyStr.truthy (Some v) = true.
Proof. by destruct v. Qed.

Lemma escaped_text_Some (e : Element) (v : string) :
  text e = Some v → v ≠ EmptyString → escaped_text (Some e) = Some (Sax.escape v).
Proof.
  intros Ht Hv. unfold escaped_text. rewrite Ht, truthy_Some by done. done.
Qed.

Lemma optional_line_Some (name v : string) :
  v ≠ EmptyString →
  optional_line name (Some (Sax.escape v)) = [xml_line name v].
Proof.
  intros Hv. unfold optional_line, xml_line, xml_text.
  rewrite truthy_Some, <- escape_flat_map; [done|].
  intros H. apply (f_equal PyStr.is_empty) in H.
  rewrite escape_is_empty in H. by destruct v.
Qed.

(** The write calls of an entry are among those of the loop. *)
Lemma url_writes_In (u : Element) (t : UrlTexts) (us : list Element) (x : string) :
  In u us → url_texts u = Some t → In x (url_block t) → In x (url_writes us).
Proof.
  intros Hu Ht Hx. induction us as [|u0 us IH]; [done|]. cbn [url_writes].
  destruct Hu as [->|Hu].
  - rewrite Ht. apply in_or_app. by left.
  - destruct (url_texts u0); [apply in_or_app; right|]; by apply IH.
Qed.

(** The line of a child with a value is written for an entry that has a
    [loc]. *)
Lemma field_line_written (u e : Element) (tg name v : string) (t : UrlTexts) :
  url_texts u = Some t →
  In (tg, name) serialized_fields →
  find tg u = Some e → text e = Some v → v ≠ EmptyString →
  In (xml_line name v) (url_block t).
Proof.
  intros Hu Hin He Ht Hv. unfold url_texts in Hu.
  destruct (find LOC u) as [l|] eqn:Hl; [|done]. injection Hu as <-.
  unfold url_block. cbn [loc_text lastmod_text changefreq_text priority_text].
  unfold serialized_fields in Hin. cbn [In] in Hin.
  destruct Hin as [[= <- <-]|[[= <- <-]|[[= <- <-]|[[= <- <-]|[]]]]].
  - rewrite He in Hl. injection Hl as <-. rewrite Ht, truthy_Some by done.
    change (default EmptyString (Some v)) with v. rewrite escape_flat_map.
    apply in_or_app. left. right. left. reflexivity.
  - rewrite He, (escaped_text_Some e v Ht Hv), optional_line_Some by done.
    apply in_or_app. right. apply in_or_app. left. by left.
  - rewrite He, (escaped_text_Some e v Ht Hv), optional_line_Some by done.
    do 2 (apply in_or_app; right). apply in_or_app. left. by left.
  - rewrite He, (escaped_text_Some e v Ht Hv), optional_line_Some by done.
    do 3 (apply in_or_app; right). apply in_or_app. left. by left.
Qed.

(** The reader gets a value back from its line when the value holds
    characters of XML only and no carriage return. *)
Lemma read_text_line (v rest : string) :
  Sax.all_Char v = true → str_mem Sax.cr v = false →
  Sax.read_text (xml_text v +:+ String Sax.lt rest)
    = Some (v, Sax.normalize_newlines (String Sax.lt rest)).
Proof.
  intros Hv Hcr. unfold Sax.read_text, xml_text.
  rewrite normalize_escape by done.
  change (Sax.normalize_newlines (String Sax.lt rest))
    with (String Sax.lt (Sax.normalize_newlines rest)).
  rewrite <- escape_flat_map. by apply chardata_escape.
Qed.

(** C2, as the code has it.  The line that is written for a [loc],
    [lastmod], [changefreq] or [priority] with a value is a part of the
    file, and it holds the value with [&], [<] and [>] as entity
    references and every other character, both quotes among them, as it
    is.  A reader that comes to the text of this line gets the value
    back when the value consists of characters of XML and has no
    carriage return in it. *)
Theorem escape_three_round_trip
    (root u e : Element) (tg name v : string) :
  In u (findall URL root) →
  is_Some (find LOC u) →
  In (tg, name) serialized_fields →
  find tg u = Some e →
  text e = Some v →
  v ≠ EmptyString →
  (∃ before after,
     concat_str (writes root)
       = before +:+ "        <" +:+ name +:+ ">" +:+
         xml_text v +:+ "</" +:+ name +:+ ">" +:+ nl +:+ after ∧
     (Sax.all_Char v = true → str_mem Sax.cr v = false →
      Sax.read_text (xml_text v +:+ "</" +:+ name +:+ ">" +:+ nl +:+ after)
        = Some (v, Sax.normalize_newlines
                     ("</" +:+ name +:+ ">" +:+ nl +:+ after)))) ∧
  xml_text v = Sax.escape v ∧
  (Sax.escape_char Sax.amp = "&amp;" ∧ Sax.escape_char Sax.lt = "&lt;" ∧
   Sax.escape_char Sax.gt = "&gt;" ∧
   Sax.escape_char Sax.quot = Sax.str1 Sax.quot ∧
   Sax.escape_char Sax.apos = Sax.str1 Sax.apos).
Proof.
  intros Hu [l Hl] Hin He Ht Hv.
  split; [|split; [symmetry; apply escape_flat_map | by repeat split]].
  assert (∃ t, url_texts u = Some t) as [t Hut].
  { unfold url_texts. rewrite Hl. eauto. }
  pose proof (field_line_written u e tg name v t Hut Hin He Ht Hv) as Hline.
  apply (url_writes_In u t (findall URL root)) in Hline; [|done..].
  assert (Hw : In (xml_line name v) (writes root)).
  { unfold writes. apply in_or_app. right. apply in_or_app. by left. }
  apply concat_str_In in Hw as (before & after & Hfile).
  exists before, after. split.
  - rewrite Hfile. unfold xml_line. by rewrite !app_assoc_str.
  - intros Hc Hcr. apply (read_text_line v); done.
Qed.

Lemma escape_three_round_trip_witness :
  ∃ before after,
    concat_str (writes quoted_root)
      = before +:+ "        <loc>" +:+ quoted_value +:+ "</loc>" +:+ nl +:+ after ∧
    Sax.read_text (quoted_value +:+ "</loc>" +:+ nl +:+ after)
      = Some (quoted_value, Sax.normalize_newlines ("</loc>" +:+ nl +:+ after)).
Proof.
  destruct (escape_three_round_trip quoted_root quoted_entry
              (mk_Element LOC (Some quoted_value) []) LOC "loc" quoted_value)
    as ((before & after & Hfile & Hread) & _).
  - left. reflexivity.
  - eexists. reflexivity.
  - left. reflexivity.
  - reflexivity.
  - reflexivity.
  - discriminate.
  - exists before, after. split; [exact Hfile|].
    apply Hread; reflexivity.
Defined.

(** The [loc] of [quoted_entry] is written with its quotes as they
    are, which is not the text with all five characters escaped. *)
Lemma quotes_written_raw :
  url_texts quoted_entry = Some (mk_UrlTexts quoted_value None None None) ∧
  Sax.escape quoted_value = quoted_value ∧
  Sax.escape_five quoted_value =
    "https://yourdomainname.com/?q=&quot;it&apos;s&quot;" ∧
  Sax.escape quoted_value ≠ Sax.escape_five quoted_value.
Proof. repeat split; [reflexivity..|discriminate]. Qed.

(** A carriage return in a value, which a reader delivers for the
    reference [&#13;], is written as it is and comes back as a line
    feed: this value is not the one that is read from its line. *)
Lemma carriage_return_read_as_line_feed :
  Sax.read_text "a&#13;b</loc>" = Some (two_lines, "</loc>") ∧
  Sax.escape two_lines = two_lines ∧
  Sax.read_text (Sax.escape two_lines +:+ "</loc>")
    = Some ("a" +:+ nl +:+ "b", "</loc>") ∧
  "a" +:+ nl +:+ "b" ≠ two_lines.
Proof. repeat split; [reflexivity..|discriminate]. Qed.

End serialized_text.

(** ** Whitespace: [strip] and [split] *)

Section whitespace.

Lemma split_ws_go_Some (cur s : string) : PyStr.split_ws_go (Some cur) s ≠ [].
Proof.
  revert cur. induction s as [|c s IH]; intros cur; cbn.
  - discriminate.
  - destruct (PyStr.isspace c); [cbn; discriminate | apply IH].
Qed.

Lemma split_ws_go_rstrip (cur : option string) (s : string) :
  PyStr.split_ws_go cur (PyStr.rstrip s) = PyStr.split_ws_go cur s.
Proof.
  revert cur. induction s as [|c s IH]; intros cur; [done|].
  cbn [PyStr.rstrip].
  destruct (PyStr.isspace c) eqn:Hc; cbn [andb].
  - destruct (PyStr.is_empty (PyStr.rstrip s)) eqn:He.
    + apply is_empty_true in He. cbn [PyStr.split_ws_go]. rewrite Hc.
      rewrite <- (IH None), He. cbn. by rewrite app_nil_r.
    + cbn [PyStr.split_ws_go]. by rewrite Hc, IH.
  - cbn [PyStr.split_ws_go]. by rewrite Hc, IH.
Qed.

Lemma split_ws_lstrip (s : string) :
  PyStr.split_ws (PyStr.lstrip s) = PyStr.split_ws s.
Proof.
  unfold PyStr.split_ws. induction s as [|c s IH]; [done|].
  cbn [PyStr.lstrip]. destruct (PyStr.isspace c) eqn:Hc; [|done].
  cbn [PyStr.split_ws_go]. by rewrite Hc, IH.
Qed.

(** The tokens of a text are those of the stripped text. *)
Lemma split_ws_strip (s : string) :
  PyStr.split_ws (PyStr.strip s) = PyStr.split_ws s.
Proof.
  unfold PyStr.strip. rewrite <- (split_ws_lstrip s).
  apply split_ws_go_rstrip.
Qed.

Lemma lstrip_head (s : string) :
  match PyStr.lstrip s with
  | EmptyString => True
  | String c _ => PyStr.isspace c = false
  end.
Proof.
  induction s as [|c s IH]; [done|]. cbn.
  destruct (PyStr.isspace c) eqn:Hc; [done|]. by rewrite Hc.
Qed.

(** A text has no token exactly when nothing is left of it after
    [strip]. *)
Lemma strip_empty_iff (s : string) :
  PyStr.is_empty (PyStr.strip s) = true ↔ PyStr.split_ws s = [].
Proof.
  rewrite <- split_ws_strip. unfold PyStr.strip.
  pose proof (lstrip_head s) as Hh.
  destruct (PyStr.lstrip s) as [|c r]; [done|].
  cbn [PyStr.rstrip]. rewrite Hh. cbn [andb PyStr.is_empty].
  unfold PyStr.split_ws. cbn [PyStr.split_ws_go]. rewrite Hh.
  split; [done|]. intros H. by apply split_ws_go_Some in H.
Qed.

End whitespace.

(** ** get_git_lastmod *)

Section git.

Context (m : Machine) (file_path : string).

Lemma get_git_lastmod_raises (e : Exn) :
  git_raises m file_path = Some e → get_git_lastmod m file_path = Raise e.
Proof. intros Hr. unfold get_git_lastmod. by rewrite Hr. Qed.

Lemma get_git_lastmod_Completed (out : string) :
  git_raises m file_path = None →
  git_log m file_path = Completed out →
  get_git_lastmod m file_path =
    match PyStr.split_ws out with
    | git_date :: _ => Ok (Some git_date, Some true)
    | [] => Ok (None, Some false)
    end.
Proof.
  intros Hr Hg. unfold get_git_lastmod. rewrite Hr, Hg, split_ws_strip.
  destruct (PyStr.split_ws out) as [|tok rest] eqn:Hs.
  - apply strip_empty_iff in Hs. by rewrite Hs.
  - destruct (PyStr.is_empty (PyStr.strip out)) eqn:He; [|done].
    apply strip_empty_iff in He. congruence.
Qed.

Lemma get_git_lastmod_failed :
  git_raises m file_path = None →
  git_log m file_path = CalledProcessError →
  get_git_lastmod m file_path = Ok (None, Some false).
Proof. intros Hr Hg. unfold get_git_lastmod. by rewrite Hr, Hg. Qed.

Lemma get_git_lastmod_not_found :
  git_raises m file_path = None →
  git_log m file_path = FileNotFoundError →
  get_git_lastmod m file_path = Ok (None, None).
Proof. intros Hr Hg. unfold get_git_lastmod. by rewrite Hr, Hg. Qed.

(** When [subprocess.run] raises nothing but the two exceptions that
    are handled, the lookup returns: the [IndexError] of [split()[0]]
    cannot happen. *)
Lemma get_git_lastmod_returns :
  git_raises m file_path = None → ∃ r, get_git_lastmod m file_path = Ok r.
Proof.
  intros Hr. destruct (git_log m file_path) as [out| |] eqn:Hg.
  - rewrite (get_git_lastmod_Completed out Hr Hg).
    destruct (PyStr.split_ws out); eauto.
  - rewrite (get_git_lastmod_failed Hr Hg). eauto.
  - rewrite (get_git_lastmod_not_found Hr Hg). eauto.
Qed.

(** C6, as the code has it: an exception of [subprocess.run] that is
    neither [CalledProcessError] nor [FileNotFoundError] leaves
    [get_git_lastmod]; otherwise the function returns [(None, False)]
    when the command fails and when its output holds no token (the empty
    output among them), [(None, None)] when there is no git to run, and
    else the first whitespace-delimited token of the output with
    [True]. *)
Theorem get_git_lastmod_cases :
  (∀ e, git_raises m file_path = Some e →
        get_git_lastmod m file_path = Raise e) ∧
  (git_raises m file_path = None →
   (git_log m file_path = CalledProcessError →
    get_git_lastmod m file_path = Ok (None, Some false)) ∧
   (git_log m file_path = Completed EmptyString →
    get_git_lastmod m file_path = Ok (None, Some false)) ∧
   (∀ out, git_log m file_path = Completed out → PyStr.split_ws out = [] →
           get_git_lastmod m file_path = Ok (None, Some false)) ∧
   (git_log m file_path = FileNotFoundError →
    get_git_lastmod m file_path = Ok (None, None)) ∧
   (∀ out tok rest,
      git_log m file_path = Completed out → PyStr.split_ws out = tok :: rest →
      get_git_lastmod m file_path = Ok (Some tok, Some true))).
Proof.
  split; [exact get_git_lastmod_raises|]. intros Hr.
  split; [by apply get_git_lastmod_failed|].
  split; [intros Hg; by rewrite (get_git_lastmod_Completed _ Hr Hg)|].
  split; [intros out Hg Hs; by rewrite (get_git_lastmod_Completed out Hr Hg), Hs|].
  split; [by apply get_git_lastmod_not_found|].
  intros out tok rest Hg Hs.
  by rewrite (get_git_lastmod_Completed out Hr Hg), Hs.
Qed.

End git.

Lemma get_git_lastmod_cases_witness :
  get_git_lastmod unexecutable_git "f" = Raise PermissionError ∧
  get_git_lastmod (sample_world CalledProcessError None None None false) "f"
    = Ok (None, Some false) ∧
  get_git_lastmod (sample_world (Completed EmptyString) None None None false) "f"
    = Ok (None, Some false) ∧
  get_git_lastmod (sample_world (Completed (nbsp +:+ nl)) None None None false) "f"
    = Ok (None, Some false) ∧
  get_git_lastmod (sample_world FileNotFoundError None None None false) "f"
    = Ok (None, None) ∧
  get_git_lastmod (sample_world (Completed commit_line) None None None false) "f"
    = Ok (Some "2025-01-15", Some true).
Proof.
  refine (conj _ (conj _ (conj _ (conj _ (conj _ _))))).
  - destruct (get_git_lastmod_cases unexecutable_git "f") as (H & _).
    apply H. reflexivity.
  - destruct (get_git_lastmod_cases
                (sample_world CalledProcessError None None None false) "f")
      as (_ & H).
    destruct (H eq_refl) as (H1 & _). apply H1. reflexivity.
  - destruct (get_git_lastmod_cases
                (sample_world (Completed EmptyString) None None None false) "f")
      as (_ & H).
    destruct (H eq_refl) as (_ & H2 & _). apply H2. reflexivity.
  - destruct (get_git_lastmod_cases
                (sample_world (Completed (nbsp +:+ nl)) None None None false) "f")
      as (_ & H).
    destruct (H eq_refl) as (_ & _ & H3 & _).
    apply (H3 (nbsp +:+ nl)); reflexivity.
  - destruct (get_git_lastmod_cases
                (sample_world FileNotFoundError None None None false) "f")
      as (_ & H).
    destruct (H eq_refl) as (_ & _ & _ & H4 & _). apply H4. reflexivity.
  - destruct (get_git_lastmod_cases
                (sample_world (Completed commit_line) None None None false) "f")
      as (_ & H).
    destruct (H eq_refl) as (_ & _ & _ & _ & H5).
    apply (H5 commit_line "2025-01-15" ["09:00:00"; "+0000"]); reflexivity.
Defined.

(** The claim as it was written, at a git that is there and cannot be
    executed: the tool cannot be invoked, and the function does not
    return [(None, None)]; it raises. *)
Lemma unexecutable_git_raises :
  get_git_lastmod unexecutable_git "/srv/site/templates/index.html"
    = Raise PermissionError ∧
  get_git_lastmod unexecutable_git "/srv/site/templates/index.html"
    ≠ Ok (None, None).
Proof. split; [reflexivity | discriminate]. Qed.

(** ** Dates *)

Section dates.







End dates.

(** ** get_file_lastmod and the fallback *)

Section filesystem_date.

Context (m : Machine) (file_path : string).

Lemma get_file_lastmod_date (s : string) :
  get_file_lastmod m file_path = Ok s →
  ∃ d, s = DateTime.strftime_Ymd (year_padded m) d ∧
       (d = now m ∨ ∃ mtime, getmtime m file_path = Some mtime ∧
                             d = fromtimestamp m mtime).
Proof.
  unfold get_file_lastmod.
  destruct (path_exists m file_path) as [[|]|]; try (intros [= <-]; by eauto).
  destruct (getmtime m file_path) as [mtime|]; try (intros [= <-]; by eauto).
  destruct (fromtimestamp_raises m mtime) as [e|].
  - destruct (is_OSError e); [intros [= <-]; by eauto | done].
  - intros [= <-]. eauto 6.
Qed.




End filesystem_date.

(** On a world the file date is always there. *)
Lemma get_file_lastmod_world (w : World) (file_path : string) :
  ∃ s, get_file_lastmod w file_path = Ok s.
Proof.
  unfold get_file_lastmod. to_world.
  destruct (path_exists w file_path) as [[|]|]; eauto.
  destruct (getmtime w file_path) as [mtime|]; eauto.
Qed.



(** ** The element tree under the updates *)

Section tree.

Lemma has_tag_true (t : string) (e : Element) : has_tag t e = true ↔ tag e = t.
Proof. apply String.eqb_eq. Qed.

Lemma has_tag_false (t : string) (e : Element) : has_tag t e = false ↔ tag e ≠ t.
Proof. apply String.eqb_neq. Qed.

Lemma find_Some_tag (t : string) (u e : Element) :
  find t u = Some e → tag e = t.
Proof.
  unfold find. intros H. apply find_some in H as [_ H]. by apply has_tag_true.
Qed.

Lemma tag_set_text (u : Element) (t v : string) : tag (set_text u t v) = tag u.
Proof. done. Qed.

Lemma tag_SubElement (u : Element) (t v : string) : tag (SubElement u t v) = tag u.
Proof. done. Qed.

Lemma find_set_first_text_ne (t t' v : string) (cs : list Element) :
  t ≠ t' →
  List.find (has_tag t') (set_first_text t v cs) = List.find (has_tag t') cs.
Proof.
  intros Hne. induction cs as [|c cs IH]; [done|].
  cbn [set_first_text]. destruct (has_tag t c) eqn:Hc.
  - apply has_tag_true in Hc. cbn [List.find].
    assert (has_tag t' c = false) as Hf by (apply has_tag_false; congruence).
    rewrite Hf.
    assert (has_tag t' (mk_Element (tag c) (Some v) (children c)) = false) as ->
      by (apply has_tag_false; cbn; congruence).
    done.
  - cbn [List.find]. by rewrite IH.
Qed.

Lemma find_set_text_ne (u : Element) (t t' v : string) :
  t ≠ t' → find t' (set_text u t v) = find t' u.
Proof. intros Hne. unfold find. cbn. by apply find_set_first_text_ne. Qed.

Lemma find_set_text_eq (u e : Element) (t v : string) :
  find t u = Some e →
  find t (set_text u t v) = Some (mk_Element (tag e) (Some v) (children e)).
Proof.
  unfold find. cbn. induction (children u) as [|c cs IH]; [done|].
  cbn [List.find set_first_text]. destruct (has_tag t c) eqn:Hc.
  - intros [= <-]. cbn [List.find].
    assert (has_tag t (mk_Element (tag c) (Some v) (children c)) = true) as ->
      by (apply has_tag_true; cbn; by apply has_tag_true).
    done.
  - intros H. cbn [List.find]. rewrite Hc. by apply IH.
Qed.

Lemma find_app_new (t t' v : string) (cs : list Element) :
  List.find (has_tag t') (cs ++ [mk_Element t (Some v) []]) =
  match List.find (has_tag t') cs with
  | Some e => Some e
  | None => if String.eqb t t' then Some (mk_Element t (Some v) []) else None
  end.
Proof.
  induction cs as [|c cs IH]; cbn.
  - unfold has_tag. cbn. by destruct (String.eqb t t').
  - by destruct (has_tag t' c).
Qed.

Lemma find_SubElement_ne (u : Element) (t t' v : string) :
  t ≠ t' → find t' (SubElement u t v) = find t' u.
Proof.
  intros Hne. unfold find. cbn. rewrite find_app_new.
  apply String.eqb_neq in Hne as ->. by destruct (List.find _ _).
Qed.

Lemma find_SubElement_eq (u : Element) (t v : string) :
  find t u = None →
  find t (SubElement u t v) = Some (mk_Element t (Some v) []).
Proof.
  unfold find. cbn. intros H. by rewrite find_app_new, H, String.eqb_refl.
Qed.

End tree.

(** ** Paths *)

Section paths.

Lemma split_go_nonempty (sep : string) (k : nat) (s : string) :
  PyStr.split_go sep k s ≠ [].
Proof.
  revert k. induction s as [|c s IH]; intros k; [done|].
  cbn [PyStr.split_go]. destruct k as [|k]; [|apply IH].
  destruct (String.prefix sep (String c s)); [done|].
  specialize (IH 0). by destruct (PyStr.split_go sep 0 s).
Qed.

Lemma prefix_of_empty (sep : string) :
  sep ≠ EmptyString → String.prefix sep EmptyString = false.
Proof. by destruct sep. Qed.

(** A text that contains the separator splits in two pieces at
    least, so that [split(sep)[1]] is there. *)
Lemma contains_split (sep s : string) :
  sep ≠ EmptyString → PyStr.contains sep s = true →
  ∃ a b r, PyStr.split sep s = a :: b :: r.
Proof.
  intros Hsep. unfold PyStr.split. induction s as [|c s IH].
  - cbn [PyStr.contains]. by rewrite (prefix_of_empty sep Hsep).
  - cbn [PyStr.contains PyStr.split_go].
    destruct (String.prefix sep (String c s)) eqn:Hp.
    + intros _. pose proof (split_go_nonempty sep (String.length sep - 1) s).
      destruct (PyStr.split_go sep (String.length sep - 1) s) as [|b r];
        [done|eauto].
    + cbn [orb]. intros Hc. destruct (IH Hc) as (a & b & r & ->).
      cbn. eauto.
Qed.

(** Line 118 never raises. *)
Lemma extract_path_returns (url_path : string) :
  ∃ r, extract_path url_path = Ok r.
Proof.
  unfold extract_path. destruct (PyStr.contains DOMAIN url_path) eqn:Hc; [|eauto].
  destruct (contains_split DOMAIN url_path) as (a & b & r & ->); [done..|eauto].
Qed.

Lemma extract_path_None (url_path : string) :
  PyStr.contains DOMAIN url_path = false → extract_path url_path = Ok None.
Proof. intros H. unfold extract_path. by rewrite H. Qed.

Lemma find_Some_contains (sep s : string) (n : nat) :
  PyStr.find sep s = Some n → PyStr.contains sep s = true.
Proof.
  revert n. induction s as [|c s IH]; intros n; cbn [PyStr.find PyStr.contains].
  - by destruct (String.prefix sep EmptyString).
  - destruct (String.prefix sep (String c s)); [done|].
    destruct (PyStr.find sep s) as [m|] eqn:Hf; [|done].
    intros _. cbn [orb]. by eapply IH.
Qed.

Lemma split_go_skip_all (sep : string) (s : string) :
  PyStr.split_go sep (String.length s) s = [EmptyString].
Proof. induction s as [|c s IH]; [done|]. by cbn. Qed.

Lemma prefix_length (a s : string) :
  String.prefix a s = true → String.length a ≤ String.length s.
Proof.
  revert s. induction a as [|x a IH]; intros [|c s]; cbn; try done; try lia.
  destruct (ascii_dec x c); [|done]. intros H%IH. lia.
Qed.

(** When the first occurrence of the separator ends the text, the
    second piece of the split is empty. *)
Lemma split_at_end (sep s : string) (n : nat) :
  sep ≠ EmptyString →
  PyStr.find sep s = Some n →
  String.length s = n + String.length sep →
  ∃ h, PyStr.split sep s = [h; EmptyString].
Proof.
  intros Hsep. unfold PyStr.split. revert n.
  induction s as [|c s IH]; intros n.
  - cbn [PyStr.find]. by rewrite (prefix_of_empty sep Hsep).
  - cbn [PyStr.find PyStr.split_go].
    destruct (String.prefix sep (String c s)) eqn:Hp.
    + intros [= <-] Hlen. cbn in Hlen.
      replace (String.length sep - 1) with (String.length s) by lia.
      rewrite split_go_skip_all. eauto.
    + destruct (PyStr.find sep s) as [m|] eqn:Hf; [|done].
      intros [= <-] Hlen. cbn in Hlen.
      destruct (IH m) as (h & ->); [done|lia|]. cbn. eauto.
Qed.

Lemma extract_path_bare_domain (url_path : string) (n : nat) :
  PyStr.find DOMAIN url_path = Some n →
  String.length url_path = n + String.length DOMAIN →
  extract_path url_path = Ok (Some "/").
Proof.
  intros Hf Hlen. unfold extract_path.
  rewrite (find_Some_contains _ _ _ Hf).
  destruct (split_at_end DOMAIN url_path n) as (h & ->); done.
Qed.

End paths.

Section strip_keeps.

Lemma prefix_app_r (sep a r : string) :
  String.prefix sep a = true → String.prefix sep (a +:+ r) = true.
Proof.
  revert a. induction sep as [|x sep IH]; intros a; [by rewrite !prefix_nil|].
  destruct a as [|c a]; [done|]. rewrite app_cons_str. cbn.
  destruct (ascii_dec x c); [apply IH|done].
Qed.

Lemma contains_app_r (sep a r : string) :
  PyStr.contains sep a = true → PyStr.contains sep (a +:+ r) = true.
Proof.
  induction a as [|c a IH].
  - cbn [PyStr.contains]. rewrite orb_false_r. intros H.
    apply (prefix_app_r sep EmptyString r) in H. rewrite app_nil_l_str in H |- *.
    destruct r; cbn [PyStr.contains]; by rewrite H.
  - rewrite app_cons_str. cbn [PyStr.contains].
    intros [H|H]%orb_prop.
    + apply (prefix_app_r sep (String c a) r) in H.
      rewrite app_cons_str in H. by rewrite H.
    + rewrite (IH H). apply orb_true_r.
Qed.

Lemma rstrip_is_prefix (s : string) : ∃ r, s = PyStr.rstrip s +:+ r.
Proof.
  induction s as [|c s (r & IH)]; [by exists EmptyString|].
  cbn [PyStr.rstrip].
  destruct (PyStr.isspace c && PyStr.is_empty (PyStr.rstrip s)).
  - by exists (String c s).
  - exists r. by rewrite app_cons_str, <- IH.
Qed.

Lemma contains_lstrip (sep s : string) :
  PyStr.contains sep (PyStr.lstrip s) = true → PyStr.contains sep s = true.
Proof.
  induction s as [|c s IH]; [done|]. cbn [PyStr.lstrip].
  destruct (PyStr.isspace c); [|done].
  intros H%IH. cbn [PyStr.contains]. rewrite H. apply orb_true_r.
Qed.

(** What [strip] leaves is a piece of the text. *)
Lemma contains_strip (sep s : string) :
  PyStr.contains sep s = false → PyStr.contains sep (PyStr.strip s) = false.
Proof.
  intros Hs. destruct (PyStr.contains sep (PyStr.strip s)) eqn:Hc; [|done].
  unfold PyStr.strip in Hc.
  destruct (rstrip_is_prefix (PyStr.lstrip s)) as (r & Hr).
  apply (contains_app_r sep _ r) in Hc. rewrite <- Hr in Hc.
  apply contains_lstrip in Hc. congruence.
Qed.

End strip_keeps.

(** ** One iteration of the loop *)

Section iteration.

Context (m : Machine) (use_filesystem : bool).

Lemma advance_0_nil (st : LoopState) : advance 0 [] st = st.
Proof.
  destruct st as [n l]. unfold advance. cbn. by rewrite Nat.add_0_r, app_nil_r.
Qed.

Lemma advance_advance (n k : nat) (a b : list Msg) (st : LoopState) :
  advance k b (advance n a st) = advance (n + k) (a ++ b) st.
Proof. unfold advance. cbn. by rewrite Nat.add_assoc, app_assoc. Qed.

Lemma update_lastmod_spec (path lastmod_date source : string)
    (u : Element) (st : LoopState) :
  ∃ msg,
    update_lastmod path lastmod_date source u st
      = (Ok (lastmod_result lastmod_date u),
         advance (lastmod_increment lastmod_date u) [msg] st).
Proof.
  unfold update_lastmod, lastmod_result, lastmod_increment, advance.
  destruct (find LASTMOD u) as [e|].
  - destruct (decide (text e = Some lastmod_date)) as [He|He].
    + rewrite bool_decide_eq_false_2 by (intros H; by apply H).
      rewrite bool_decide_eq_true_2 by done.
      eexists. cbn. by rewrite Nat.add_0_r.
    + rewrite bool_decide_eq_true_2 by done.
      rewrite bool_decide_eq_false_2 by done.
      eexists. cbn. by rewrite Nat.add_1_r.
  - eexists. cbn. by rewrite Nat.add_1_r.
Qed.

Lemma update_from_table_spec (t : string) (configured : option string)
    (u : Element) (st : LoopState) :
  update_from_table t configured u st
    = (Ok (table_result t configured u),
       advance (table_increment t configured u) [] st).
Proof.
  unfold update_from_table, table_result, table_increment, advance.
  destruct st as [n l].
  destruct (find t u), configured; cbn;
    by rewrite ?Nat.add_0_r, ?Nat.add_1_r, ?app_nil_r.
Qed.

Lemma route_lookup (path template_file : string) :
  ROUTE_TO_FILE !! path = Some template_file →
  path = "/" ∧ template_file = "templates/index.html".
Proof.
  unfold ROUTE_TO_FILE. intros H.
  destruct (decide (path = "/")) as [->|Hne].
  - rewrite lookup_insert_eq in H. by injection H as <-.
  - rewrite lookup_insert_ne, lookup_empty in H by done. done.
Qed.

Lemma process_url_no_loc (u : Element) (st : LoopState) :
  find LOC u = None → process_url m use_filesystem u st = (Ok u, st).
Proof. intros H. unfold process_url. by rewrite H. Qed.

Lemma process_url_no_text (u l : Element) (st : LoopState) :
  find LOC u = Some l → text l = None →
  process_url m use_filesystem u st = (Raise AttributeError, st).
Proof. intros H Ht. unfold process_url. by rewrite H, Ht. Qed.

Lemma process_url_foreign (u l : Element) (s : string) (st : LoopState) :
  find LOC u = Some l → text l = Some s →
  PyStr.contains DOMAIN (PyStr.strip s) = false →
  process_url m use_filesystem u st = (Ok u, st).
Proof.
  intros H Ht Hc. unfold process_url. rewrite H, Ht.
  unfold mbind, M_bind, lift. by rewrite (extract_path_None _ Hc).
Qed.

Lemma process_url_unmapped (u l : Element) (s path : string) (st : LoopState) :
  find LOC u = Some l → text l = Some s →
  extract_path (PyStr.strip s) = Ok (Some path) →
  ROUTE_TO_FILE !! path = None →
  process_url m use_filesystem u st = (Ok u, advance 0 [WarnNoMapping path] st).
Proof.
  intros H Ht He Hr. unfold process_url. rewrite H, Ht.
  unfold mbind, M_bind, lift. rewrite He, Hr. cbn. unfold advance.
  by rewrite Nat.add_0_r.
Qed.

Lemma process_url_mapped (u l : Element) (s path template_file : string)
    (st : LoopState) :
  find LOC u = Some l → text l = Some s →
  extract_path (PyStr.strip s) = Ok (Some path) →
  ROUTE_TO_FILE !! path = Some template_file →
  process_url m use_filesystem u st
    = mapped_steps m use_filesystem path template_file u st.
Proof.
  intros H Ht He Hr. unfold process_url. rewrite H, Ht.
  unfold mbind at 1. unfold M_bind at 1. unfold lift. rewrite He, Hr.
  by destruct (route_lookup _ _ Hr) as [-> ->].
Qed.

End iteration.

(** ** One iteration on a world *)

Section iteration_world.

Context (w : World) (use_filesystem : bool).

(** Lines 130-151 never raise; they print the git warning at most. *)
Lemma resolve_lastmod_returns (template_file template_path : string)
    (st : LoopState) :
  ∃ lastmod_date source msgs,
    resolve_lastmod w use_filesystem template_file template_path st
      = (Ok (lastmod_date, source), advance 0 msgs st) ∧
    (msgs = [] ∨ msgs = [WarnNotTracked template_file]).
Proof.
  unfold resolve_lastmod, mbind, M_bind, lift, print.
  destruct (get_file_lastmod_world w template_path) as (s & ->).
  destruct use_filesystem.
  { do 2 eexists. exists []. rewrite advance_0_nil. eauto. }
  destruct (get_git_lastmod_returns w template_path eq_refl) as ([d t] & ->).
  destruct d as [d|].
  { do 2 eexists. exists []. rewrite advance_0_nil. eauto. }
  destruct t as [[|]|].
  - do 2 eexists. exists []. rewrite advance_0_nil. eauto.
  - do 2 eexists. exists [WarnNotTracked template_file].
    split; [|by right]. unfold advance. cbn. by rewrite Nat.add_0_r.
  - do 2 eexists. exists []. rewrite advance_0_nil. eauto.
Qed.

(** Lines 128-187 return, with the entry and the state that the three
    updates give one after the other. *)
Lemma mapped_steps_spec (path template_file : string) (u : Element)
    (st : LoopState) :
  ∃ lastmod_date source msgs msg,
    resolve_lastmod w use_filesystem template_file
                    (path_join (project_root w) template_file) st
      = (Ok (lastmod_date, source), advance 0 msgs st) ∧
    let cfg_p := str_float <$> PRIORITY_MAP !! path in
    let cfg_c := CHANGEFREQ_MAP !! path in
    let u1 := lastmod_result lastmod_date u in
    let u2 := table_result PRIORITY cfg_p u1 in
    mapped_steps w use_filesystem path template_file u st
      = (Ok (table_result CHANGEFREQ cfg_c u2),
         advance (lastmod_increment lastmod_date u +
                  table_increment PRIORITY cfg_p u1 +
                  table_increment CHANGEFREQ cfg_c u2)
                 (msgs ++ [msg]) st).
Proof.
  destruct (resolve_lastmod_returns template_file
              (path_join (project_root w) template_file) st)
    as (d & src & msgs & Hres & _).
  destruct (update_lastmod_spec path d src u (advance 0 msgs st)) as (msg & Hl).
  exists d, src, msgs, msg. split; [done|]. cbn zeta.
  unfold mapped_steps, mbind, M_bind. to_world. rewrite Hres, Hl.
  rewrite !update_from_table_spec, !advance_advance.
  f_equal. unfold advance. f_equal. lia.
Qed.

End iteration_world.

(** ** The counter *)

Section counter.

Context (w : World) (use_filesystem : bool).

Local Ltac tags_differ := apply String.eqb_neq; vm_compute; reflexivity.

Lemma LASTMOD_PRIORITY : LASTMOD ≠ PRIORITY.
Proof. tags_differ. Qed.
Lemma LASTMOD_CHANGEFREQ : LASTMOD ≠ CHANGEFREQ.
Proof. tags_differ. Qed.
Lemma PRIORITY_CHANGEFREQ : PRIORITY ≠ CHANGEFREQ.
Proof. tags_differ. Qed.
Lemma LASTMOD_LOC : LASTMOD ≠ LOC.
Proof. tags_differ. Qed.
Lemma PRIORITY_LOC : PRIORITY ≠ LOC.
Proof. tags_differ. Qed.
Lemma CHANGEFREQ_LOC : CHANGEFREQ ≠ LOC.
Proof. tags_differ. Qed.

Lemma find_lastmod_result_ne (t d : string) (u : Element) :
  LASTMOD ≠ t → find t (lastmod_result d u) = find t u.
Proof.
  intros Hne. unfold lastmod_result. destruct (find LASTMOD u).
  - by apply find_set_text_ne.
  - by apply find_SubElement_ne.
Qed.

Lemma find_table_result_ne (t t' : string) (cfg : option string) (u : Element) :
  t ≠ t' → find t' (table_result t cfg u) = find t' u.
Proof.
  intros Hne. unfold table_result. destruct cfg as [v|]; [|done].
  destruct (find t u).
  - by apply find_set_text_ne.
  - by apply find_SubElement_ne.
Qed.

Lemma table_increment_find (t : string) (cfg : option string) (u u' : Element) :
  find t u' = find t u → table_increment t cfg u' = table_increment t cfg u.
Proof. intros H. unfold table_increment. by rewrite H. Qed.

(** C3: an entry that is processed adds to the counter one for each of
    [lastmod], [priority] and [changefreq] that is created and one for
    a [lastmod] whose text changes; a [priority] or [changefreq] that
    is already there is overwritten without being counted.  The entry
    [https://yourdomainname.com/] without other children, with the
    commit date [2025-01-15 09:00:00 +0000], gains [lastmod]
    2025-01-15, [priority] 1.0 and [changefreq] weekly, and the counter
    is 3. *)
Theorem counter_per_entry :
  (∀ (u l : Element) (s path template_file : string) (st : LoopState),
     find LOC u = Some l → text l = Some s →
     extract_path (PyStr.strip s) = Ok (Some path) →
     ROUTE_TO_FILE !! path = Some template_file →
     ∃ lastmod_date source st1 u' st',
       resolve_lastmod w use_filesystem template_file
                       (path_join (project_root w) template_file) st
         = (Ok (lastmod_date, source), st1) ∧
       process_url w use_filesystem u st = (Ok u', st') ∧
       updated_count st' =
         updated_count st
         + lastmod_increment lastmod_date u
         + table_increment PRIORITY (str_float <$> PRIORITY_MAP !! path) u
         + table_increment CHANGEFREQ (CHANGEFREQ_MAP !! path) u) ∧
  (∀ (t : string) (cfg : option string) (u e : Element),
     find t u = Some e → table_increment t cfg u = 0) ∧
  (∀ out rest,
     use_filesystem = false →
     git_log w (path_join (project_root w) "templates/index.html")
       = Completed out →
     PyStr.split_ws out = "2025-01-15" :: rest →
     process_url w use_filesystem root_entry (mk_LoopState 0 [])
       = (Ok root_entry_updated,
          mk_LoopState 3 [MsgAdded "/" "2025-01-15" "git"])).
Proof.
  split; [|split].
  - intros u l s path template_file st Hl Ht He Hr.
    destruct (mapped_steps_spec w use_filesystem path template_file u st)
      as (d & src & msgs & msg & Hres & Hm). cbn zeta in Hm.
    rewrite <- (process_url_mapped w use_filesystem u l s path template_file st
                  Hl Ht He Hr) in Hm.
    eexists d, src, _, _, _. split; [exact Hres|]. split; [exact Hm|].
    cbn [advance updated_count].
    rewrite (table_increment_find PRIORITY _ u (lastmod_result d u))
      by (apply find_lastmod_result_ne, LASTMOD_PRIORITY).
    rewrite (table_increment_find CHANGEFREQ _ u
               (table_result PRIORITY _ (lastmod_result d u))).
    + lia.
    + rewrite find_table_result_ne by apply PRIORITY_CHANGEFREQ.
      apply find_lastmod_result_ne, LASTMOD_CHANGEFREQ.
  - intros t cfg u e He. unfold table_increment. rewrite He. by destruct cfg.
  - intros out rest -> Hg Hs.
    rewrite (process_url_mapped w false root_entry
               (mk_Element LOC (Some "https://yourdomainname.com/") [])
               "https://yourdomainname.com/" "/" "templates/index.html")
      by reflexivity.
    unfold mapped_steps, resolve_lastmod, mbind, M_bind, lift.
    to_world. rewrite (get_git_lastmod_Completed w _ out eq_refl Hg), Hs.
    reflexivity.
Qed.

End counter.

Lemma counter_per_entry_witness :
  process_url git_world false root_entry (mk_LoopState 0 [])
    = (Ok root_entry_updated, mk_LoopState 3 [MsgAdded "/" "2025-01-15" "git"]) ∧
  ∃ u' st', process_url git_world false stale_entry (mk_LoopState 0 []) = (Ok u', st') ∧
            updated_count st' = 2.
Proof.
  destruct (counter_per_entry git_world false) as (H1 & _ & H3).
  split.
  - apply (H3 commit_line ["09:00:00"; "+0000"]); reflexivity.
  - destruct (H1 stale_entry
                (mk_Element LOC (Some "https://yourdomainname.com/") [])
                "https://yourdomainname.com/" "/" "templates/index.html"
                (mk_LoopState 0 []))
      as (d & src & st1 & u' & st' & Hres & Hp & Hc);
      [reflexivity..|].
    exists u', st'. split; [exact Hp|].
    vm_compute in Hres. injection Hres as <- _ _.
    rewrite Hc. reflexivity.
Defined.

(** ** One iteration on a machine *)

Section iteration_machine.

Context (m : Machine) (use_filesystem : bool).

(** Lines 130-151 return or raise the same, whatever was counted and
    printed before, and print the git warning at most. *)
Lemma resolve_lastmod_result (template_file template_path : string) :
  ∃ r msgs,
    (msgs = [] ∨ msgs = [WarnNotTracked template_file]) ∧
    ∀ st, resolve_lastmod m use_filesystem template_file template_path st
          = (r, advance 0 msgs st).
Proof.
  assert (Hwarn : ∀ st, mk_LoopState (updated_count st)
                          (printed st ++ [WarnNotTracked template_file])
                        = advance 0 [WarnNotTracked template_file] st).
  { intros st. unfold advance. by rewrite Nat.add_0_r. }
  unfold resolve_lastmod, mbind, M_bind, lift, print.
  destruct use_filesystem.
  { destruct (get_file_lastmod m template_path) as [s|e];
      eexists _, []; (split; [by left|]); intros st;
      by rewrite advance_0_nil. }
  destruct (get_git_lastmod m template_path) as [[[d|] t]|e].
  - eexists _, []. split; [by left|]. intros st. by rewrite advance_0_nil.
  - destruct t as [[|]|];
      destruct (get_file_lastmod m template_path) as [s|e].
    + eexists _, []. split; [by left|]. intros st. by rewrite advance_0_nil.
    + eexists _, []. split; [by left|]. intros st. by rewrite advance_0_nil.
    + eexists _, [_]. split; [by right|]. intros st. by rewrite <- Hwarn.
    + eexists _, [_]. split; [by right|]. intros st. by rewrite <- Hwarn.
    + eexists _, []. split; [by left|]. intros st. by rewrite advance_0_nil.
    + eexists _, []. split; [by left|]. intros st. by rewrite advance_0_nil.
  - eexists _, []. split; [by left|]. intros st. by rewrite advance_0_nil.
Qed.

(** Lines 128-187: when the date is resolved the three updates follow
    and return; when the resolution raises, so does the iteration. *)
Lemma mapped_steps_result (path template_file : string) :
  ∃ r msgs,
    (∀ st, resolve_lastmod m use_filesystem template_file
             (path_join (project_root m) template_file) st
           = (r, advance 0 msgs st)) ∧
    match r with
    | Ok (lastmod_date, source) =>
        ∀ u st, ∃ msg,
          mapped_steps m use_filesystem path template_file u st
            = (Ok (steps_result path lastmod_date u),
               advance (steps_increment path lastmod_date u) (msgs ++ [msg]) st)
    | Raise e =>
        ∀ u st, mapped_steps m use_filesystem path template_file u st
                = (Raise e, advance 0 msgs st)
    end.
Proof.
  destruct (resolve_lastmod_result template_file
              (path_join (project_root m) template_file))
    as (r & msgs & _ & Hres).
  exists r, msgs. split; [exact Hres|]. destruct r as [[d src]|e].
  - intros u st.
    destruct (update_lastmod_spec path d src u (advance 0 msgs st)) as (msg & Hl).
    exists msg. unfold mapped_steps, mbind, M_bind. rewrite Hres, Hl.
    rewrite !update_from_table_spec, !advance_advance.
    unfold steps_result, steps_increment.
    rewrite (table_increment_find PRIORITY _ u (lastmod_result d u))
      by (apply find_lastmod_result_ne, LASTMOD_PRIORITY).
    rewrite (table_increment_find CHANGEFREQ _ u
               (table_result PRIORITY _ (lastmod_result d u))).
    + f_equal. unfold advance. f_equal. lia.
    + rewrite find_table_result_ne by apply PRIORITY_CHANGEFREQ.
      apply find_lastmod_result_ne, LASTMOD_CHANGEFREQ.
  - intros u st. unfold mapped_steps, mbind, M_bind. by rewrite Hres.
Qed.

(** An iteration that returns has kept the tag and the [loc] of the
    entry, and the [loc] had a text. *)
Lemma process_url_returns (u : Element) (st : LoopState) :
  (∃ e st', process_url m use_filesystem u st = (Raise e, st')) ∨
  (∃ st', process_url m use_filesystem u st = (Ok u, st')) ∨
  (∃ l s d st', find LOC u = Some l ∧ text l = Some s ∧
                extract_path (PyStr.strip s) = Ok (Some "/") ∧
                process_url m use_filesystem u st
                  = (Ok (steps_result "/" d u), st')).
Proof.
  destruct (find LOC u) as [l|] eqn:Hl.
  2: { right. left. rewrite process_url_no_loc by done. eauto. }
  destruct (text l) as [s|] eqn:Ht.
  2: { left. rewrite (process_url_no_text m use_filesystem u l st Hl Ht). eauto. }
  destruct (extract_path_returns (PyStr.strip s)) as ([path|] & He).
  - destruct (ROUTE_TO_FILE !! path) as [tf|] eqn:Hr.
    + rewrite (process_url_mapped m use_filesystem u l s path tf st Hl Ht He Hr).
      destruct (route_lookup _ _ Hr) as [-> ->].
      destruct (mapped_steps_result "/" "templates/index.html")
        as ([[d src]|e] & msgs & _ & Hm).
      * destruct (Hm u st) as (msg & ->). right. right. eauto 10.
      * rewrite Hm. left. eauto.
    + rewrite (process_url_unmapped m use_filesystem u l s path st Hl Ht He Hr).
      right. left. eauto.
  - right. left. unfold process_url. rewrite Hl, Ht. unfold mbind, M_bind, lift.
    rewrite He. eauto.
Qed.

End iteration_machine.

(** ** Entries that are skipped *)

Section skipped.

Context (m : Machine) (use_filesystem : bool).

(** C8: an entry whose [loc] does not contain the domain, and an entry
    whose path the route table does not map, come out of the iteration
    as they went in, and the counter is what it was; for the unmapped
    path one warning is printed, and nothing else. *)
Theorem skipped_entries_untouched
    (u l : Element) (s : string) (st : LoopState) :
  find LOC u = Some l → text l = Some s →
  (PyStr.contains DOMAIN s = false →
   process_url m use_filesystem u st = (Ok u, st)) ∧
  (∀ path,
     extract_path (PyStr.strip s) = Ok (Some path) →
     ROUTE_TO_FILE !! path = None →
     ∃ st',
       process_url m use_filesystem u st = (Ok u, st') ∧
       updated_count st' = updated_count st ∧
       printed st' = printed st ++ [WarnNoMapping path] ∧
       is_warning (WarnNoMapping path) = true).
Proof.
  intros Hl Ht. split.
  - intros Hc. eapply process_url_foreign; eauto using contains_strip.
  - intros path He Hr. eexists. split.
    + eapply process_url_unmapped; eauto.
    + cbn. by rewrite Nat.add_0_r.
Qed.

End skipped.

Lemma skipped_entries_untouched_witness :
  process_url git_world false
    (mk_Element URL None [mk_Element LOC (Some "https://example.org/") []])
    (mk_LoopState 4 [])
  = (Ok (mk_Element URL None [mk_Element LOC (Some "https://example.org/") []]),
     mk_LoopState 4 []) ∧
  ∃ st',
    process_url git_world false
      (mk_Element URL None
         [mk_Element LOC (Some "https://yourdomainname.com/about") []])
      (mk_LoopState 4 [])
    = (Ok (mk_Element URL None
             [mk_Element LOC (Some "https://yourdomainname.com/about") []]),
       st') ∧
    updated_count st' = 4 ∧ printed st' = [WarnNoMapping "/about"].
Proof.
  split.
  - apply (skipped_entries_untouched git_world false _
             (mk_Element LOC (Some "https://example.org/") [])
             "https://example.org/"); reflexivity.
  - destruct (skipped_entries_untouched git_world false
                (mk_Element URL None
                   [mk_Element LOC (Some "https://yourdomainname.com/about") []])
                (mk_Element LOC (Some "https://yourdomainname.com/about") [])
                "https://yourdomainname.com/about" (mk_LoopState 4 [])
                eq_refl eq_refl) as (_ & H).
    destruct (H "/about") as (st' & Hp & Hc & Hm & _); [reflexivity..|].
    exists st'. by repeat split.
Defined.

(** A [loc] with a no-break space behind the root: [strip] removes the
    space, the path is ["/"], and the entry is not skipped. *)
Lemma nbsp_loc_is_processed :
  PyStr.strip ("https://yourdomainname.com/" +:+ nbsp)
    = "https://yourdomainname.com/" ∧
  process_url git_world false nbsp_entry (mk_LoopState 0 [])
    = (Ok nbsp_entry_updated,
       mk_LoopState 3 [MsgAdded "/" "2025-01-15" "git"]).
Proof. split; reflexivity. Qed.

(** ** The bare domain *)

Section bare_domain.

Context (w : World) (use_filesystem : bool).

(** C10: a [loc] that ends with the domain, nothing after it, has the
    path ["/"]: the entry goes through the steps of the root route,
    with its template, its priority and its change frequency. *)
Theorem bare_domain_is_root (u l : Element) (s : string) (n : nat) :
  find LOC u = Some l → text l = Some s →
  PyStr.find DOMAIN (PyStr.strip s) = Some n →
  String.length (PyStr.strip s) = n + String.length DOMAIN →
  extract_path (PyStr.strip s) = Ok (Some "/") ∧
  extract_path (PyStr.strip s) = extract_path "https://yourdomainname.com/" ∧
  (∀ st, process_url w use_filesystem u st
         = mapped_steps w use_filesystem "/" "templates/index.html" u st) ∧
  ROUTE_TO_FILE !! "/" = Some "templates/index.html" ∧
  str_float <$> PRIORITY_MAP !! "/" = Some "1.0" ∧
  CHANGEFREQ_MAP !! "/" = Some "weekly".
Proof.
  intros Hl Ht Hf Hlen.
  pose proof (extract_path_bare_domain _ n Hf Hlen) as He.
  split; [exact He|]. split; [by rewrite He|]. split; [|by vm_compute].
  intros st. by eapply process_url_mapped.
Qed.

End bare_domain.

Lemma bare_domain_is_root_witness :
  extract_path (PyStr.strip "https://yourdomainname.com") = Ok (Some "/") ∧
  process_url git_world false
    (mk_Element URL None [mk_Element LOC (Some "https://yourdomainname.com") []])
    (mk_LoopState 0 [])
  = mapped_steps git_world false "/" "templates/index.html"
      (mk_Element URL None [mk_Element LOC (Some "https://yourdomainname.com") []])
      (mk_LoopState 0 []).
Proof.
  destruct (bare_domain_is_root git_world false
              (mk_Element URL None
                 [mk_Element LOC (Some "https://yourdomainname.com") []])
              (mk_Element LOC (Some "https://yourdomainname.com") [])
              "https://yourdomainname.com" 8)
    as (H1 & _ & H3 & _); [reflexivity..|].
  split; [exact H1 | exact (H3 _)].
Defined.

(** ** An empty [loc] element *)

Section empty_loc.

Context (w : World) (use_filesystem : bool).

(** An iteration raises for one reason only. *)
Lemma process_url_raises (u : Element) (st st' : LoopState) (e : Exn) :
  process_url w use_filesystem u st = (Raise e, st') →
  e = AttributeError ∧ ∃ l, find LOC u = Some l ∧ text l = None.
Proof.
  destruct (find LOC u) as [l|] eqn:Hl.
  2: { by rewrite process_url_no_loc. }
  destruct (text l) as [s|] eqn:Ht.
  2: { rewrite (process_url_no_text w use_filesystem u l st Hl Ht).
       intros [= <- _]. eauto. }
  destruct (extract_path_returns (PyStr.strip s)) as ([path|] & He).
  - destruct (ROUTE_TO_FILE !! path) as [tf|] eqn:Hr.
    + rewrite (process_url_mapped w use_filesystem u l s path tf st Hl Ht He Hr).
      destruct (mapped_steps_spec w use_filesystem path tf u st)
        as (? & ? & ? & ? & _ & ->). done.
    + by rewrite (process_url_unmapped w use_filesystem u l s path st Hl Ht He Hr).
  - unfold process_url. rewrite Hl, Ht. unfold mbind, M_bind, lift.
    by rewrite He.
Qed.

Lemma update_loop_raises (cs : list Element) (u l : Element) (st : LoopState) :
  In u cs → has_tag URL u = true → find LOC u = Some l → text l = None →
  ∃ st', update_loop w use_filesystem cs st = (Raise AttributeError, st').
Proof.
  intros Hin Hu Hl Ht. revert st.
  induction cs as [|c cs IH]; intros st; [done|].
  cbn [update_loop]. unfold mbind, M_bind.
  destruct (has_tag URL c) eqn:Hc.
  - destruct (process_url w use_filesystem c st) as [[c'|e] st1] eqn:Hp.
    + destruct Hin as [->|Hin].
      { rewrite (process_url_no_text w use_filesystem u l st Hl Ht) in Hp.
        done. }
      destruct (IH Hin st1) as (st' & ->). eauto.
    + apply process_url_raises in Hp as [-> _]. eauto.
  - destruct Hin as [->|Hin]; [congruence|].
    destruct (IH Hin st) as (st' & ->). eauto.
Qed.

(** C9: when an entry of the document has a [loc] element without
    text, [update_sitemap] raises [AttributeError]; no file is created
    or changed, and [main] ends with the exit status 1.  An entry without
    a [loc] element goes through the loop untouched and unreported, and
    nothing is written for it. *)
Theorem empty_loc_aborts
    (fs : gmap string string) (content : string) (root u l : Element) :
  fs !! sitemap_path w = Some content →
  ET_parse w content = Ok root →
  u ∈ findall URL root → find LOC u = Some l → text l = None →
  returned (update_sitemap w use_filesystem fs) = Raise AttributeError ∧
  files (update_sitemap w use_filesystem fs) = fs ∧
  (main w use_filesystem fs).1.1 = fs ∧
  (main w use_filesystem fs).2 = 1 ∧
  (∀ (v : Element) (st : LoopState),
     find LOC v = None →
     process_url w use_filesystem v st = (Ok v, st) ∧ url_texts v = None).
Proof.
  intros Hfs Hparse Hu Hl Ht.
  apply list_elem_of_In, filter_In in Hu as [Hin Htag].
  destruct (update_loop_raises (children root) u l (mk_LoopState 0 [])
              Hin Htag Hl Ht) as (st' & Hloop).
  assert (Ho : update_sitemap w use_filesystem fs
               = mk_Outcome fs (printed st') (Raise AttributeError)).
  { unfold update_sitemap. to_world. by rewrite Hfs, Hparse, Hloop. }
  unfold main. rewrite Ho. cbn. repeat split.
  - by apply process_url_no_loc.
  - unfold url_texts. by rewrite H.
Qed.

End empty_loc.

Lemma empty_loc_aborts_witness :
  returned (update_sitemap (with_root empty_loc_root git_world) false sample_files)
    = Raise AttributeError ∧
  files (update_sitemap (with_root empty_loc_root git_world) false sample_files)
    = sample_files ∧
  (main (with_root empty_loc_root git_world) false sample_files).2 = 1 ∧
  returned (update_sitemap (with_root missing_loc_root git_world) false sample_files)
    = Ok ().
Proof.
  destruct (empty_loc_aborts (with_root empty_loc_root git_world) false
              sample_files "<urlset/>" empty_loc_root
              (mk_Element URL None [mk_Element LOC None []])
              (mk_Element LOC None []))
    as (H1 & H2 & _ & H4 & _).
  - reflexivity.
  - reflexivity.
  - apply list_elem_of_In. right. left. reflexivity.
  - reflexivity.
  - reflexivity.
  - refine (conj H1 (conj H2 (conj H4 _))). vm_compute. reflexivity.
Defined.

(** ** The loop as a whole *)

Section loop.

Context (m : Machine) (use_filesystem : bool).

Lemma tag_lastmod_result (d : string) (u : Element) :
  tag (lastmod_result d u) = tag u.
Proof. unfold lastmod_result. by destruct (find LASTMOD u). Qed.

Lemma tag_table_result (t : string) (cfg : option string) (u : Element) :
  tag (table_result t cfg u) = tag u.
Proof. unfold table_result. by destruct cfg, (find t u). Qed.

Lemma process_url_kept (u u' : Element) (st st' : LoopState) :
  process_url m use_filesystem u st = (Ok u', st') → kept u u'.
Proof.
  intros Hp.
  destruct (process_url_returns m use_filesystem u st)
    as [(e & s1 & H)|[(s1 & H)|(l & s & d & s1 & Hl & Ht & _ & H)]];
    rewrite H in Hp; [done| |]; injection Hp as <- <-.
  - split; [done|]. split; [done|]. intros _ l Hl Hn.
    by rewrite (process_url_no_text m use_filesystem u l st Hl Hn) in H.
  - unfold steps_result. split; [|split].
    + by rewrite !tag_table_result, tag_lastmod_result.
    + rewrite !find_table_result_ne, find_lastmod_result_ne;
        auto using LASTMOD_LOC, PRIORITY_LOC, CHANGEFREQ_LOC.
    + intros _ l0 Hl0. rewrite Hl in Hl0. injection Hl0 as <-. by rewrite Ht.
Qed.

Lemma update_loop_kept (cs cs' : list Element) (st st' : LoopState) :
  update_loop m use_filesystem cs st = (Ok cs', st') → Forall2 kept cs cs'.
Proof.
  revert cs' st st'. induction cs as [|c cs IH]; intros cs' st st'.
  - intros [= <- _]. constructor.
  - cbn [update_loop]. unfold mbind, M_bind.
    destruct (has_tag URL c) eqn:Hc.
    + destruct (process_url m use_filesystem c st) as [[c'|e] st1] eqn:Hp; [|done].
      destruct (update_loop m use_filesystem cs st1) as [[cs1|e] st2] eqn:Hloop;
        [|done].
      intros [= <- _]. constructor; [by eapply process_url_kept | by eapply IH].
    + destruct (update_loop m use_filesystem cs st) as [[cs1|e] st2] eqn:Hloop;
        [|done].
      intros [= <- _]. constructor; [|by eapply IH].
      unfold kept. by rewrite Hc.
Qed.

Lemma kept_filter (cs cs' : list Element) :
  Forall2 kept cs cs' →
  Forall2 kept (List.filter (has_tag URL) cs) (List.filter (has_tag URL) cs').
Proof.
  induction 1 as [|c c' cs cs' Hk _ IH]; [constructor|].
  cbn [List.filter].
  assert (has_tag URL c' = has_tag URL c) as ->
    by (unfold has_tag; by destruct Hk as [-> _]).
  destruct (has_tag URL c); [by constructor | done].
Qed.

(** The [url] elements that come out of a loop that returns, next to
    those that went in. *)
Lemma update_loop_urls (cs cs' : list Element) (st st' : LoopState) :
  update_loop m use_filesystem cs st = (Ok cs', st') →
  Forall (λ u, has_tag URL u = true) (List.filter (has_tag URL) cs) ∧
  Forall2 kept (List.filter (has_tag URL) cs) (List.filter (has_tag URL) cs').
Proof.
  intros Hloop. split.
  - apply Forall_forall. intros u Hu%list_elem_of_In%filter_In. tauto.
  - eapply kept_filter, update_loop_kept, Hloop.
Qed.

(** The [loc] values of the entries that come out are those of the
    entries that went in, one for one. *)
Lemma kept_locs (us us' : list Element) :
  Forall (λ u, has_tag URL u = true) us →
  Forall2 kept us us' →
  entry_loc <$> omap entry_of us' = omap (λ u, find LOC u ≫= text) us ∧
  Forall (λ u, ∀ l, find LOC u = Some l → is_Some (text l)) us.
Proof.
  intros Hurl Hk. induction Hk as [|u u' us us' (Htag & Hloc & Hsome) _ IH].
  { split; [done|constructor]. }
  apply Forall_cons in Hurl as [Hu Hurl]. destruct (IH Hurl) as [IH1 IH2].
  split.
  - cbn [omap list_omap]. unfold entry_of at 1. rewrite Hloc.
    destruct (find LOC u) as [l|] eqn:Hl; cbn; [|exact IH1].
    destruct (text l) as [v|] eqn:Ht; [|by destruct (Hsome Hu l)].
    cbn. by rewrite IH1.
  - constructor; [|exact IH2]. intros l Hl.
    destruct (text l) eqn:Ht; [eauto|by destruct (Hsome Hu l)].
Qed.

(** *** The write calls and the document of the specification *)

Lemma loc_text_xml (l : Element) :
  (if PyStr.truthy (text l)
   then Sax.escape (default EmptyString (text l)) else EmptyString)
  = xml_text (default EmptyString (text l)).
Proof.
  destruct (text l) as [[|c v]|]; [done| |done].
  change (PyStr.truthy (Some (String c v))) with true. cbn iota.
  apply escape_flat_map.
Qed.

Lemma optional_line_xml (name tg : string) (u : Element) :
  concat_str (optional_line name (escaped_text (find tg u)))
    = xml_optional name (field_value tg u).
Proof.
  unfold field_value, child_text, escaped_text.
  destruct (find tg u) as [e|]; [|done]. cbn [mbind option_bind].
  destruct (text e) as [v|]; [|done].
  destruct v as [|c v]; [done|].
  change (PyStr.truthy (Some (String c v))) with true.
  change (PyStr.is_empty (String c v)) with false. cbn iota.
  change (default EmptyString (Some (String c v))) with (String c v).
  rewrite optional_line_Some by done. cbn [xml_optional concat_str foldr].
  apply app_nil_r_str.
Qed.

Lemma url_block_render (u : Element) (t : UrlTexts) (e : UrlEntry) :
  url_texts u = Some t → entry_of u = Some e →
  concat_str (url_block t) = render_entry e.
Proof.
  unfold url_texts, entry_of. destruct (find LOC u) as [l|]; [|done].
  intros [= <-] [= <-]. unfold url_block, render_entry.
  cbn [loc_text lastmod_text changefreq_text priority_text
       entry_loc entry_lastmod entry_changefreq entry_priority].
  rewrite !concat_str_app, !optional_line_xml, loc_text_xml.
  cbn [concat_str foldr]. unfold xml_line.
  rewrite !app_assoc_str, ?app_nil_r_str. reflexivity.
Qed.

Lemma url_writes_render (us : list Element) :
  concat_str (url_writes us) = concat_str (render_entry <$> omap entry_of us).
Proof.
  induction us as [|u us IH]; [done|]. cbn [url_writes omap list_omap].
  destruct (url_texts u) as [t|] eqn:Ht.
  - destruct (entry_of u) as [e|] eqn:He.
    + cbn [fmap list_fmap concat_str foldr]. fold (concat_str (render_entry <$> omap entry_of us)).
      by rewrite concat_str_app, IH, (url_block_render u t e).
    + unfold url_texts in Ht. unfold entry_of in He.
      by destruct (find LOC u).
  - destruct (entry_of u) as [e|] eqn:He; [|exact IH].
    unfold url_texts in Ht. unfold entry_of in He. by destruct (find LOC u).
Qed.

(** The write calls of lines 200-228 give, one after the other, the
    document of the entries. *)
Lemma writes_render (root : Element) :
  concat_str (writes root) = render_document (entries_of (children root)).
Proof.
  unfold writes, render_document, entries_of, findall.
  rewrite !concat_str_app, url_writes_render. cbn [concat_str foldr].
  rewrite !app_assoc_str, ?app_nil_r_str. reflexivity.
Qed.

End loop.

(** ** A run that succeeds *)

Section success.

Context (m : Machine) (use_filesystem : bool) (fs : gmap string string).

(** What is known when [update_sitemap] returns: the file was there
    and was read, the loop ended, every write call was made, and the
    file took the place of the sitemap. *)
Lemma update_sitemap_returns :
  returned (update_sitemap m use_filesystem fs) = Ok () →
  ∃ content root cs st,
    fs !! sitemap_path m = Some content ∧
    ET_parse m content = Ok root ∧
    update_loop m use_filesystem (children root) (mk_LoopState 0 [])
      = (Ok cs, st) ∧
    files (update_sitemap m use_filesystem fs) !! sitemap_path m
      = Some (concat_str (writes (mk_Element (tag root) (text root) cs))) ∧
    stdout (update_sitemap m use_filesystem fs)
      = printed st ++ [MsgSuccess (updated_count st);
                       MsgLocation (sitemap_path m)].
Proof.
  unfold update_sitemap.
  destruct (fs !! sitemap_path m) as [content|] eqn:Hfs; [|done].
  destruct (ET_parse m content) as [root|e] eqn:Hparse; [|done].
  destruct (update_loop _ _ _ _) as [[cs|e] st] eqn:Hloop; [|done].
  set (root' := mk_Element (tag root) (text root) cs).
  assert (Hmove : ∀ fs1 content1,
            fs1 !! tmp_path m = Some content1 →
            returned (let '(fs2, out, r) := replace_sitemap m fs1 (updated_count st) in
                      mk_Outcome fs2 (printed st ++ out) r) = Ok () →
            files (let '(fs2, out, r) := replace_sitemap m fs1 (updated_count st) in
                   mk_Outcome fs2 (printed st ++ out) r) !! sitemap_path m
              = Some content1 ∧
            stdout (let '(fs2, out, r) := replace_sitemap m fs1 (updated_count st) in
                    mk_Outcome fs2 (printed st ++ out) r)
              = printed st ++ [MsgSuccess (updated_count st);
                               MsgLocation (sitemap_path m)]).
  { intros fs1 content1 Htmp. unfold replace_sitemap, shutil_move.
    destruct (move_fault m); [done|]. rewrite Htmp. cbn.
    intros _. by rewrite lookup_insert_eq. }
  unfold write_tmp. destruct (create_fault m); [done|].
  destruct (write_fault m) as [k|].
  - case_bool_decide; [done|]. intros Hr.
    destruct (Hmove _ _ (lookup_insert_eq fs (tmp_path m) _) Hr) as [H1 H2].
    eauto 10.
  - intros Hr.
    destruct (Hmove _ _ (lookup_insert_eq fs (tmp_path m) _) Hr) as [H1 H2].
    eauto 10.
Qed.

(** The file of a run that returns is the document of the entries that
    the loop returned. *)
Lemma update_sitemap_document :
  returned (update_sitemap m use_filesystem fs) = Ok () →
  ∃ content root cs st,
    fs !! sitemap_path m = Some content ∧
    ET_parse m content = Ok root ∧
    update_loop m use_filesystem (children root) (mk_LoopState 0 [])
      = (Ok cs, st) ∧
    files (update_sitemap m use_filesystem fs) !! sitemap_path m
      = Some (render_document (entries_of cs)).
Proof.
  intros Hr.
  destruct (update_sitemap_returns Hr)
    as (content & root & cs & st & Hfs & Hparse & Hloop & Hfile & _).
  exists content, root, cs, st. repeat (split; [done|]).
  by rewrite Hfile, writes_render.
Qed.

(** C7: in a run that returns, the file that takes the place of the
    sitemap is the document of the entries of the loop, block after
    block, and their [loc] values are the [loc] values of the document
    that was read, in the same order and as many: every [url] element
    that was read with a [loc] child has its block, whatever the loop
    has created or changed in it. *)
Theorem order_preserved :
  returned (update_sitemap m use_filesystem fs) = Ok () →
  ∃ content root cs st,
    fs !! sitemap_path m = Some content ∧
    ET_parse m content = Ok root ∧
    update_loop m use_filesystem (children root) (mk_LoopState 0 [])
      = (Ok cs, st) ∧
    files (update_sitemap m use_filesystem fs) !! sitemap_path m
      = Some (render_document (entries_of cs)) ∧
    entry_loc <$> entries_of cs = input_locs root ∧
    Forall (λ u, ∀ l, find LOC u = Some l → is_Some (text l))
           (findall URL root).
Proof.
  intros Hr.
  destruct (update_sitemap_document Hr)
    as (content & root & cs & st & Hfs & Hparse & Hloop & Hfile).
  exists content, root, cs, st. repeat (split; [done|]).
  destruct (update_loop_urls m use_filesystem _ _ _ _ Hloop) as [Hurl Hk].
  exact (kept_locs _ _ Hurl Hk).
Qed.

End success.

Lemma order_preserved_witness :
  ∃ es,
    files (update_sitemap (with_root three_root git_world) false sample_files)
      !! sitemap_path git_world = Some (render_document es) ∧
    entry_loc <$> es
      = ["https://yourdomainname.com/a?x=1&y=<2>";
         "https://yourdomainname.com/";
         "https://example.org/"].
Proof.
  destruct (order_preserved (with_root three_root git_world) false sample_files)
    as (content & root & cs & st & Hfs & Hparse & Hloop & Hfile & Hlocs & _).
  - vm_compute. reflexivity.
  - exists (entries_of cs). split; [exact Hfile|].
    injection Hparse as <-. exact Hlocs.
Defined.

(** ** What is written *)

Section written.

Context (m : Machine) (use_filesystem : bool) (fs : gmap string string).

Lemma texts_nonempty_child (e c : Element) :
  texts_nonempty e = true → In c (children e) → texts_nonempty c = true.
Proof.
  destruct e as [t x cs]. cbn [texts_nonempty children].
  intros [_ H]%andb_prop Hin. rewrite forallb_forall in H. by apply H.
Qed.

Lemma texts_nonempty_text (e : Element) :
  texts_nonempty e = true → text e ≠ Some EmptyString.
Proof.
  destruct e as [t [[|c s]|] cs]; cbn [texts_nonempty text]; try done.
Qed.

Lemma find_In (t : string) (u e : Element) :
  find t u = Some e → In e (children u).
Proof. unfold find. intros H. by apply find_some in H as [H _]. Qed.

(** An optional field has a value exactly when the child has a text
    that is not empty, and the value is that text. *)
Lemma field_value_Some (tg : string) (u : Element) (v : string) :
  field_value tg u = Some v ↔ child_text tg u = Some v ∧ v ≠ EmptyString.
Proof.
  unfold field_value. destruct (child_text tg u) as [x|].
  - destruct x as [|c x]; cbn [PyStr.is_empty].
    + split; [done|]. by intros [[= <-] ?].
    + split; [by intros [= <-]|]. by intros [[= <-] _].
  - split; [done|]. by intros [? _].
Qed.

(** The entries of elements that the reader and the loop have made
    have a [loc] that is not empty. *)
Lemma kept_wellformed (root : Element) (us us' : list Element) :
  texts_nonempty root = true →
  Forall (λ u, In u (children root) ∧ has_tag URL u = true) us →
  Forall2 kept us us' →
  Forall entry_wellformed (omap entry_of us').
Proof.
  intros Hroot Hin Hk.
  induction Hk as [|u u' us us' (_ & Hloc & Hsome) _ IH]; [constructor|].
  apply Forall_cons in Hin as [[Hu Hurl] Hin]. cbn [omap list_omap].
  destruct (entry_of u') as [e|] eqn:He; [|by apply IH].
  constructor; [|by apply IH].
  unfold entry_of in He. destruct (find LOC u') as [l|] eqn:Hl; [|done].
  injection He as <-. split.
  - cbn [entry_loc]. symmetry in Hloc. specialize (Hsome Hurl l Hloc).
    apply find_In in Hloc.
    pose proof (texts_nonempty_text l
                  (texts_nonempty_child u l
                     (texts_nonempty_child root u Hroot Hu) Hloc)) as Hne.
    by destruct (text l) as [[|c v]|].
  - intros tg get Hf. unfold entry_fields in Hf. cbn [In] in Hf.
    destruct Hf as [[= <- <-]|[[= <- <-]|[[= <- <-]|[]]]];
      cbn [entry_lastmod entry_changefreq entry_priority];
      intros [_ H]%field_value_Some; done.
Qed.

(** C1: the file that a run leaves in the place of the sitemap is the
    document of the entries of the [url] elements that the loop
    returned: one block for each, with the line of [loc] and with the
    line of [lastmod], [changefreq] or [priority] when the entry has a
    value for it.  Every entry has a [loc] that is not empty, which is
    the text of the [loc] child; an optional field has a value exactly
    when the child is there with a text that is not empty, and then the
    value is this text. *)
Theorem written_entries_wellformed :
  reader_ok m →
  returned (update_sitemap m use_filesystem fs) = Ok () →
  ∃ content root cs st,
    fs !! sitemap_path m = Some content ∧
    ET_parse m content = Ok root ∧
    update_loop m use_filesystem (children root) (mk_LoopState 0 [])
      = (Ok cs, st) ∧
    files (update_sitemap m use_filesystem fs) !! sitemap_path m
      = Some (render_document (entries_of cs)) ∧
    Forall entry_wellformed (entries_of cs) ∧
    ∀ u e, In u (List.filter (has_tag URL) cs) → entry_of u = Some e →
      child_text LOC u = Some (entry_loc e) ∧
      ∀ tg get, In (tg, get) entry_fields →
        ∀ v, get e = Some v ↔ child_text tg u = Some v ∧ v ≠ EmptyString.
Proof.
  intros Hreader Hr.
  destruct (update_sitemap_document m use_filesystem fs Hr)
    as (content & root & cs & st & Hfs & Hparse & Hloop & Hfile).
  exists content, root, cs, st. repeat (split; [done|]).
  destruct (update_loop_urls m use_filesystem _ _ _ _ Hloop) as [Hurl Hk].
  assert (Hwf : Forall entry_wellformed (entries_of cs)).
  { apply (kept_wellformed root (List.filter (has_tag URL) (children root)));
      [by eapply Hreader| |done].
    apply Forall_forall. intros u Hu%list_elem_of_In%filter_In. tauto. }
  split; [exact Hwf|].
  intros u e Hu He. split.
  - assert (Hin : In e (entries_of cs)).
    { apply list_elem_of_In, list_elem_of_omap. exists u.
      split; [by apply list_elem_of_In | done]. }
    rewrite Forall_forall in Hwf.
    destruct (Hwf e (proj2 (list_elem_of_In _ _) Hin)) as [Hne _].
    unfold entry_of in He. unfold child_text.
    destruct (find LOC u) as [l|]; [|done]. injection He as <-.
    cbn [entry_loc] in *. cbn. by destruct (text l).
  - intros tg get Hf v. unfold entry_of in He.
    destruct (find LOC u) as [l|]; [|done]. injection He as <-.
    unfold entry_fields in Hf. cbn [In] in Hf.
    destruct Hf as [[= <- <-]|[[= <- <-]|[[= <- <-]|[]]]];
      apply field_value_Some.
Qed.

End written.

Lemma written_entries_wellformed_witness :
  files (update_sitemap (with_root three_root git_world) false sample_files)
    !! sitemap_path git_world
  = Some (render_document
            [mk_UrlEntry "https://yourdomainname.com/a?x=1&y=<2>" None None None;
             mk_UrlEntry "https://yourdomainname.com/" (Some "2025-01-15")
                         (Some "weekly") (Some "1.0");
             mk_UrlEntry "https://example.org/" None None None]) ∧
  Forall entry_wellformed
    [mk_UrlEntry "https://yourdomainname.com/a?x=1&y=<2>" None None None;
     mk_UrlEntry "https://yourdomainname.com/" (Some "2025-01-15")
                 (Some "weekly") (Some "1.0");
     mk_UrlEntry "https://example.org/" None None None].
Proof.
  destruct (written_entries_wellformed
              (with_root three_root git_world) false sample_files)
    as (content & root & cs & st & Hfs & Hparse & Hloop & Hfile & Hwf & _).
  - intros content root [= <-]. reflexivity.
  - vm_compute. reflexivity.
  - injection Hparse as <-. vm_compute in Hloop. injection Hloop as <- _.
    exact (conj Hfile Hwf).
Defined.

(** ** The temporary file *)

Section persistence.

Context (w : World) (use_filesystem : bool) (fs : gmap string string).

(** When the move fails after the writes went through, the handler
    removes the temporary file and raises: the files are those of
    before the run. *)
Lemma move_failure_restores :
  fs !! tmp_path w = None →
  write_fault w = None →
  move_fault w = true →
  files (update_sitemap w use_filesystem fs) = fs ∧
  ∃ e, returned (update_sitemap w use_filesystem fs) = Raise e.
Proof.
  intros Htmp Hwrite Hmove. unfold update_sitemap. to_world.
  destruct (fs !! sitemap_path w) as [content|]; [|by eauto].
  destruct (ET_parse w content) as [root|e]; [|by eauto].
  destruct (update_loop _ _ _ _) as [[cs|e] st]; [|by eauto].
  unfold write_tmp. to_world. destruct (create_fault w); [by eauto|].
  rewrite Hwrite. unfold replace_sitemap, shutil_move. to_world.
  rewrite Hmove. cbn [move_clobbers machine_of].
  rewrite bool_decide_eq_true_2 by (rewrite lookup_insert_eq; eauto).
  rewrite delete_insert_eq, delete_id by done. cbn. eauto.
Qed.

(** When a write call fails, the exception leaves the [with] block and
    the function; the temporary file stays, with what was written. *)
Lemma write_failure_leaks (content : string) (root : Element)
    (cs : list Element) (st : LoopState) (k : nat) :
  fs !! sitemap_path w = Some content →
  ET_parse w content = Ok root →
  update_loop w use_filesystem (children root) (mk_LoopState 0 [])
    = (Ok cs, st) →
  create_fault w = false →
  write_fault w = Some k →
  k < length (writes (mk_Element (tag root) (text root) cs)) →
  returned (update_sitemap w use_filesystem fs) = Raise OSError ∧
  files (update_sitemap w use_filesystem fs)
    = <[tmp_path w :=
          concat_str (take k (writes (mk_Element (tag root) (text root) cs)))]> fs.
Proof.
  intros Hfs Hparse Hloop Hc Hw Hk. unfold update_sitemap. to_world.
  rewrite Hfs, Hparse, Hloop. unfold write_tmp. to_world. rewrite Hc, Hw.
  by rewrite bool_decide_eq_true_2.
Qed.

End persistence.

(** C4, on a run where the fourth write call fails: [update_sitemap]
    raises, the sitemap is as it was, and the temporary file is still in
    the directory of the sitemap, with the three lines that were written.
    On a run where the move fails, the temporary file is removed, the
    files are those of before the run, and the exception reaches
    [main], which ends with status 1. *)
Theorem write_failure_keeps_tmp_file :
  returned (update_sitemap write_fault_world false sample_files) = Raise OSError ∧
  files (update_sitemap write_fault_world false sample_files)
    !! sitemap_path write_fault_world = Some "<urlset/>" ∧
  files (update_sitemap write_fault_world false sample_files)
    !! tmp_path write_fault_world = Some first_three_writes ∧
  tmp_path write_fault_world = "/srv/site/seo/tmpk3x0_q7a.xml" ∧
  files (update_sitemap move_fault_world false sample_files) = sample_files ∧
  returned (update_sitemap move_fault_world false sample_files)
    = Raise (Exception OSError) ∧
  (main move_fault_world false sample_files).2 = 1.
Proof.
  split; [by vm_compute|]. split; [by vm_compute|].
  split; [by vm_compute|]. split; [by vm_compute|].
  split; [|split; by vm_compute].
  apply move_failure_restores; reflexivity.
Qed.


(** * Further properties of the script *)

(** ** The path of an entry *)

Section path_of_loc.

Lemma find_None_contains (sep s : string) :
  PyStr.find sep s = None → PyStr.contains sep s = false.
Proof.
  induction s as [|c s IH]; cbn [PyStr.find PyStr.contains].
  - by destruct (String.prefix sep EmptyString).
  - destruct (String.prefix sep (String c s)); [done|].
    destruct (PyStr.find sep s); [done|]. intros _. cbn [orb]. by apply IH.
Qed.

Lemma split_go_skip (sep : string) (k : nat) (s : string) :
  k ≤ String.length s →
  PyStr.split_go sep k s = PyStr.split_go sep 0 (str_drop k s).
Proof.
  revert k. induction s as [|c s IH]; intros [|k] Hk.
  - reflexivity.
  - cbn in Hk. lia.
  - reflexivity.
  - cbn [PyStr.split_go str_drop]. apply IH. cbn in Hk. lia.
Qed.

(** [split] cuts at the first occurrence and goes on behind it. *)
Lemma split_at_find (sep s : string) :
  sep ≠ EmptyString →
  PyStr.split sep s =
    match PyStr.find sep s with
    | Some n => str_take n s :: PyStr.split sep (str_drop (n + String.length sep) s)
    | None => [s]
    end.
Proof.
  intros Hsep. unfold PyStr.split. induction s as [|c s IH].
  - cbn [PyStr.find PyStr.split_go]. by rewrite (prefix_of_empty sep Hsep).
  - cbn [PyStr.find PyStr.split_go].
    destruct (String.prefix sep (String c s)) eqn:Hp.
    + apply prefix_length in Hp. cbn in Hp.
      destruct sep as [|x sep]; [done|]. cbn [String.length] in *.
      cbn [Nat.add str_drop str_take].
      replace (S (String.length sep) - 1) with (String.length sep) by lia.
      f_equal. apply split_go_skip. lia.
    + rewrite IH. destruct (PyStr.find sep s) as [n|]; cbn; done.
Qed.

(** The path of line 118 is what stands between the first occurrence of
    the domain and the next one (or the end), and ["/"] when that is
    empty; without the domain there is no path. *)
Theorem extract_path_between (url_path : string) :
  extract_path url_path =
    match PyStr.find DOMAIN url_path with
    | Some n =>
        Ok (Some (PyStr.or_else
                    (until_next DOMAIN
                       (str_drop (n + String.length DOMAIN) url_path)) "/"))
    | None => Ok None
    end.
Proof.
  unfold extract_path.
  destruct (PyStr.find DOMAIN url_path) as [n|] eqn:Hf.
  - rewrite (find_Some_contains _ _ _ Hf).
    rewrite split_at_find, Hf by done.
    rewrite (split_at_find DOMAIN (str_drop _ _)) by done.
    unfold until_next. by destruct (PyStr.find DOMAIN (str_drop _ _)).
  - by rewrite (find_None_contains _ _ Hf).
Qed.

End path_of_loc.

(** ** The escaped text *)

Section escaped.

Lemma escape_char_no_markup (c : ascii) :
  str_mem Sax.lt (Sax.escape_char c) = false ∧
  str_mem Sax.gt (Sax.escape_char c) = false.
Proof.
  unfold Sax.escape_char.
  destruct (Ascii.eqb c Sax.amp); [done|].
  destruct (Ascii.eqb c Sax.gt) eqn:Hg; [done|].
  destruct (Ascii.eqb c Sax.lt) eqn:Hl; [done|].
  cbn. by rewrite Hl, Hg.
Qed.

(** What is written between two tags holds no [<] and no [>], and two
    values are written alike only when they are the same value. *)
Theorem escape_no_markup (a b : string) :
  str_mem Sax.lt (Sax.escape a) = false ∧
  str_mem Sax.gt (Sax.escape a) = false ∧
  (Sax.escape a = Sax.escape b ↔ a = b).
Proof.
  split; [|split; [|split; [|by intros ->]]].
  - induction a as [|c a IH]; [done|].
    rewrite escape_cons, str_mem_app, IH.
    by destruct (escape_char_no_markup c) as [-> _].
  - induction a as [|c a IH]; [done|].
    rewrite escape_cons, str_mem_app, IH.
    by destruct (escape_char_no_markup c) as [_ ->].
  - apply escape_inj.
Qed.

End escaped.

Lemma escape_no_markup_witness :
  str_mem Sax.lt (Sax.escape "a<b>&c") = false ∧
  (Sax.escape "a<b" = Sax.escape "a&lt;b" ↔ "a<b" = "a&lt;b").
Proof.
  destruct (escape_no_markup "a<b>&c" EmptyString) as (H1 & _ & _).
  destruct (escape_no_markup "a<b" "a&lt;b") as (_ & _ & H3).
  exact (conj H1 H3).
Defined.

(** ** The state of an entry after its three updates *)

Section after_steps.

Context (w : World) (use_filesystem : bool).

Lemma Element_eta (e : Element) : mk_Element (tag e) (text e) (children e) = e.
Proof. by destruct e. Qed.

Lemma set_first_text_id (t v : string) (cs : list Element) (e : Element) :
  List.find (has_tag t) cs = Some e → text e = Some v →
  set_first_text t v cs = cs.
Proof.
  induction cs as [|c cs IH]; [done|]. cbn [List.find set_first_text].
  destruct (has_tag t c).
  - intros [= <-] Ht. by rewrite <- Ht, Element_eta.
  - intros Hf Ht. by rewrite IH.
Qed.

Lemma set_text_id (u e : Element) (t v : string) :
  find t u = Some e → text e = Some v → set_text u t v = u.
Proof.
  intros Hf Ht. unfold set_text.
  by rewrite (set_first_text_id t v (children u) e Hf Ht), Element_eta.
Qed.

Lemma child_text_lastmod_result (d : string) (u : Element) :
  child_text LASTMOD (lastmod_result d u) = Some d.
Proof.
  unfold child_text, lastmod_result. destruct (find LASTMOD u) as [e|] eqn:He.
  - by rewrite (find_set_text_eq u e LASTMOD d He).
  - by rewrite find_SubElement_eq.
Qed.

Lemma child_text_table_result (t v : string) (u : Element) :
  child_text t (table_result t (Some v) u) = Some v.
Proof.
  unfold child_text, table_result. destruct (find t u) as [e|] eqn:He.
  - by rewrite (find_set_text_eq u e t v He).
  - by rewrite find_SubElement_eq.
Qed.

Lemma child_text_Some (t v : string) (u : Element) :
  child_text t u = Some v → ∃ e, find t u = Some e ∧ text e = Some v.
Proof. unfold child_text. destruct (find t u) as [e|]; [eauto|done]. Qed.

Lemma lastmod_result_id (d : string) (u : Element) :
  child_text LASTMOD u = Some d →
  lastmod_result d u = u ∧ lastmod_increment d u = 0.
Proof.
  intros (e & He & Ht)%child_text_Some.
  unfold lastmod_result, lastmod_increment. rewrite He. split.
  - by eapply set_text_id.
  - by rewrite bool_decide_eq_true_2.
Qed.

Lemma table_result_id (t : string) (cfg : option string) (u : Element) :
  (∀ v, cfg = Some v → child_text t u = Some v) →
  table_result t cfg u = u ∧ table_increment t cfg u = 0.
Proof.
  intros H. unfold table_result, table_increment.
  destruct cfg as [v|]; [|done].
  destruct (child_text_Some t v u (H v eq_refl)) as (e & He & Ht).
  rewrite He. split; [by eapply set_text_id | done].
Qed.

Lemma text_lastmod_result (d : string) (u : Element) :
  text (lastmod_result d u) = text u.
Proof. unfold lastmod_result. by destruct (find LASTMOD u). Qed.

Lemma text_table_result (t : string) (cfg : option string) (u : Element) :
  text (table_result t cfg u) = text u.
Proof. unfold table_result. by destruct cfg, (find t u). Qed.

Lemma child_text_ne_lastmod (t d : string) (u : Element) :
  LASTMOD ≠ t → child_text t (lastmod_result d u) = child_text t u.
Proof. intros H. unfold child_text. by rewrite find_lastmod_result_ne. Qed.

Lemma child_text_ne_table (t t' : string) (cfg : option string) (u : Element) :
  t ≠ t' → child_text t' (table_result t cfg u) = child_text t' u.
Proof. intros H. unfold child_text. by rewrite find_table_result_ne. Qed.

(** The fields of an entry after the three updates. *)
Lemma steps_result_fields (path d : string) (u : Element) :
  child_text LASTMOD (steps_result path d u) = Some d ∧
  (∀ v, str_float <$> PRIORITY_MAP !! path = Some v →
        child_text PRIORITY (steps_result path d u) = Some v) ∧
  (∀ v, CHANGEFREQ_MAP !! path = Some v →
        child_text CHANGEFREQ (steps_result path d u) = Some v) ∧
  find LOC (steps_result path d u) = find LOC u ∧
  tag (steps_result path d u) = tag u ∧
  text (steps_result path d u) = text u.
Proof.
  unfold steps_result. repeat split.
  - rewrite !child_text_ne_table
      by auto using LASTMOD_PRIORITY, LASTMOD_CHANGEFREQ.
    apply child_text_lastmod_result.
  - intros v ->.
    rewrite child_text_ne_table by apply not_eq_sym, PRIORITY_CHANGEFREQ.
    apply child_text_table_result.
  - intros v ->. apply child_text_table_result.
  - rewrite !find_table_result_ne, find_lastmod_result_ne;
      auto using LASTMOD_LOC, PRIORITY_LOC, CHANGEFREQ_LOC.
  - by rewrite !tag_table_result, tag_lastmod_result.
  - by rewrite !text_table_result, text_lastmod_result.
Qed.

(** Doing the three updates again changes nothing and counts nothing. *)
Lemma steps_result_again (path d : string) (u : Element) :
  steps_result path d (steps_result path d u) = steps_result path d u ∧
  steps_increment path d (steps_result path d u) = 0.
Proof.
  destruct (steps_result_fields path d u) as (Hl & Hp & Hc & _).
  set (u' := steps_result path d u) in *.
  destruct (lastmod_result_id d u' Hl) as [E1 I1].
  destruct (table_result_id PRIORITY _ u' Hp) as [E2 I2].
  destruct (table_result_id CHANGEFREQ _ u' Hc) as [E3 I3].
  unfold steps_result, steps_increment. by rewrite E1, E2, E3, I1, I2, I3.
Qed.

(** The date and the source of lines 130-151 do not depend on what was
    counted and printed before. *)
Lemma resolve_lastmod_uniform (template_file template_path : string) :
  ∃ lastmod_date source msgs,
    (msgs = [] ∨ msgs = [WarnNotTracked template_file]) ∧
    ∀ st, resolve_lastmod w use_filesystem template_file template_path st
          = (Ok (lastmod_date, source), advance 0 msgs st).
Proof.
  destruct (resolve_lastmod_result w use_filesystem template_file template_path)
    as (r & msgs & Hm & Hres).
  destruct (resolve_lastmod_returns w use_filesystem template_file template_path
              (mk_LoopState 0 []))
    as (d & src & msgs' & Hok & _).
  rewrite Hres in Hok. injection Hok as -> _.
  exists d, src, msgs. split; [exact Hm | exact Hres].
Qed.

Lemma mapped_steps_uniform (path template_file : string) :
  ∃ lastmod_date source msgs,
    (∀ st, resolve_lastmod w use_filesystem template_file
             (path_join (project_root w) template_file) st
           = (Ok (lastmod_date, source), advance 0 msgs st)) ∧
    ∀ u st, ∃ msg,
      mapped_steps w use_filesystem path template_file u st
        = (Ok (steps_result path lastmod_date u),
           advance (steps_increment path lastmod_date u) (msgs ++ [msg]) st).
Proof.
  destruct (mapped_steps_result w use_filesystem path template_file)
    as (r & msgs & Hres & Hm).
  to_world.
  destruct (resolve_lastmod_returns w use_filesystem template_file
              (path_join (project_root w) template_file) (mk_LoopState 0 []))
    as (d & src & msgs' & Hok & _).
  rewrite Hres in Hok. injection Hok as -> _.
  exists d, src, msgs. split; [exact Hres | exact Hm].
Qed.

End after_steps.

(** ** The date that is written *)

Section written_date.

Context (m : Machine) (use_filesystem : bool).

Lemma rev_app_token (a b : string) :
  PyStr.is_empty (String.rev_app a b) = PyStr.is_empty a && PyStr.is_empty b ∧
  no_space (String.rev_app a b) = no_space a && no_space b.
Proof.
  revert b. induction a as [|c a IH]; intros b; [done|].
  cbn [String.rev_app]. destruct (IH (String c b)) as [-> ->].
  cbn [PyStr.is_empty no_space]. split; [by rewrite andb_false_r|].
  rewrite andb_assoc. f_equal. apply andb_comm.
Qed.

Lemma is_token_rev (x : string) : is_token (String.rev x) = is_token x.
Proof.
  unfold is_token, String.rev. destruct (rev_app_token x EmptyString) as [-> ->].
  cbn. by rewrite !andb_true_r.
Qed.

Lemma split_ws_go_tokens (cur : option string) (s : string) :
  (∀ x, cur = Some x → is_token x = true) →
  Forall (λ t, is_token t = true) (PyStr.split_ws_go cur s).
Proof.
  revert cur. induction s as [|c s IH]; intros cur Hcur; cbn [PyStr.split_ws_go].
  - destruct cur as [x|]; cbn; [|constructor].
    constructor; [|constructor]. rewrite is_token_rev. by apply Hcur.
  - destruct (PyStr.isspace c) eqn:Hc.
    + apply Forall_app. split; [|by apply IH].
      destruct cur as [x|]; cbn; [|constructor].
      constructor; [|constructor]. rewrite is_token_rev. by apply Hcur.
    + apply IH. intros x [= <-]. unfold is_token. cbn. rewrite Hc. cbn.
      destruct cur as [y|]; [|done]. cbn.
      specialize (Hcur y eq_refl). unfold is_token in Hcur.
      by apply andb_prop in Hcur as [_ ->].
Qed.

Lemma split_ws_head_token (out d : string) (rest : list string) :
  PyStr.split_ws out = d :: rest → is_token d = true.
Proof.
  intros Hs. pose proof (split_ws_go_tokens None out ltac:(done)) as Ht.
  unfold PyStr.split_ws in Hs. rewrite Hs in Ht.
  by apply Forall_cons in Ht as [Ht _].
Qed.

(** [get_git_lastmod] raises what [subprocess.run] raises past the two
    handlers and nothing else: [split()[0]] on line 67 never raises.
    What it hands out as a date is the first token of the git output: it
    is not empty and holds no whitespace, and it comes with [True];
    without a date the flag is never [True], so that the last branch of
    lines 147-149 is never taken. *)
Theorem git_date_is_token (file_path : string) :
  (∀ e, get_git_lastmod m file_path = Raise e ↔
        git_raises m file_path = Some e) ∧
  (∀ d t, get_git_lastmod m file_path = Ok (Some d, t) →
          t = Some true ∧ is_token d = true ∧
          ∃ out, git_log m file_path = Completed out ∧
                 head (PyStr.split_ws out) = Some d) ∧
  (∀ t, get_git_lastmod m file_path = Ok (None, t) → t ≠ Some true).
Proof.
  destruct (git_raises m file_path) as [e0|] eqn:Hr.
  { rewrite (get_git_lastmod_raises m file_path e0 Hr).
    split; [|done]. intros e. split; congruence. }
  assert (Hraise : ∀ e, get_git_lastmod m file_path = Raise e ↔ None = Some e).
  { intros e. split; [|done].
    destruct (get_git_lastmod_returns m file_path Hr) as (r & ->). done. }
  split; [exact Hraise|]. clear Hraise.
  destruct (git_log m file_path) as [out| |] eqn:Hg.
  - rewrite (get_git_lastmod_Completed m file_path out Hr Hg).
    destruct (PyStr.split_ws out) as [|d rest] eqn:Hs.
    + split; [done|]. by intros t [= <-].
    + split; [|done]. intros d0 t [= <- <-]. split; [done|].
      split; [by eapply split_ws_head_token|].
      exists out. by rewrite Hs.
  - rewrite (get_git_lastmod_failed m file_path Hr Hg).
    split; [done|]. by intros t [= <-].
  - rewrite (get_git_lastmod_not_found m file_path Hr Hg).
    split; [done|]. by intros t [= <-].
Qed.

Lemma strftime_Ymd_nonempty (padded : bool) (d : DateTime.datetime) :
  PyStr.is_empty (DateTime.strftime_Ymd padded d) = false.
Proof.
  unfold DateTime.strftime_Ymd. rewrite is_empty_app.
  change ("-" +:+ ?x) with (String "-"%char x). cbn [PyStr.is_empty].
  apply andb_false_r.
Qed.

Lemma get_file_lastmod_nonempty (file_path s : string) :
  get_file_lastmod m file_path = Ok s → PyStr.is_empty s = false.
Proof.
  intros Hs. destruct (get_file_lastmod_date m file_path s Hs) as (d & -> & _).
  apply strftime_Ymd_nonempty.
Qed.

(** Where the date and its source tag come from, whenever lines 130-151
    come to a date.  In git mode the date of git is taken whenever git
    gives one, whatever the file on disk says; the tag ["filesystem"] is
    that of the filesystem mode only, and the warning is printed for the
    untracked file only.  The date is never empty. *)
Theorem resolve_lastmod_sources
    (template_file template_path : string) (st st' : LoopState)
    (lastmod_date source : string) :
  resolve_lastmod m use_filesystem template_file template_path st
    = (Ok (lastmod_date, source), st') →
  PyStr.is_empty lastmod_date = false ∧
  ((use_filesystem = true ∧ source = "filesystem" ∧
    get_file_lastmod m template_path = Ok lastmod_date ∧ st' = st) ∨
   (use_filesystem = false ∧ source = "git" ∧ st' = st ∧
    git_raises m template_path = None ∧
    ∃ out, git_log m template_path = Completed out ∧
           head (PyStr.split_ws out) = Some lastmod_date) ∨
   (use_filesystem = false ∧ source = "filesystem (not in git)" ∧
    git_raises m template_path = None ∧
    untracked m template_path ∧
    get_file_lastmod m template_path = Ok lastmod_date ∧
    st' = advance 0 [WarnNotTracked template_file] st) ∨
   (use_filesystem = false ∧ source = "filesystem (git unavailable)" ∧
    git_raises m template_path = None ∧
    git_log m template_path = FileNotFoundError ∧
    get_file_lastmod m template_path = Ok lastmod_date ∧ st' = st)).
Proof.
  assert (Hwarn : mk_LoopState (updated_count st)
                    (printed st ++ [WarnNotTracked template_file])
                  = advance 0 [WarnNotTracked template_file] st).
  { unfold advance. by rewrite Nat.add_0_r. }
  unfold resolve_lastmod, mbind, M_bind, lift, print.
  destruct use_filesystem.
  { destruct (get_file_lastmod m template_path) as [s|e] eqn:Hf; [|done].
    intros [= <- <- <-]. split; [by eapply get_file_lastmod_nonempty|].
    by left. }
  destruct (git_raises m template_path) as [e0|] eqn:Hr.
  { by rewrite (get_git_lastmod_raises m template_path e0 Hr). }
  destruct (git_log m template_path) as [out| |] eqn:Hg.
  - rewrite (get_git_lastmod_Completed m template_path out Hr Hg).
    destruct (PyStr.split_ws out) as [|d rest] eqn:Hs.
    + destruct (get_file_lastmod m template_path) as [s|e] eqn:Hf; [|done].
      intros [= <- <- <-]. split; [by eapply get_file_lastmod_nonempty|].
      right. right. left. rewrite Hwarn. repeat split; try done.
      right. eauto.
    + intros [= <- <- <-]. split.
      * pose proof (split_ws_head_token out d rest Hs) as Ht.
        unfold is_token in Ht.
        apply andb_prop in Ht as [Ht _]. by apply negb_true_iff in Ht.
      * right. left. repeat split; try done. exists out. by rewrite Hs.
  - rewrite (get_git_lastmod_failed m template_path Hr Hg).
    destruct (get_file_lastmod m template_path) as [s|e] eqn:Hf; [|done].
    intros [= <- <- <-]. split; [by eapply get_file_lastmod_nonempty|].
    right. right. left. rewrite Hwarn. repeat split; try done. by left.
  - rewrite (get_git_lastmod_not_found m template_path Hr Hg).
    destruct (get_file_lastmod m template_path) as [s|e] eqn:Hf; [|done].
    intros [= <- <- <-]. split; [by eapply get_file_lastmod_nonempty|].
    right. right. right. by repeat split.
Qed.

Lemma resolve_lastmod_nonempty
    (template_file template_path : string) (st st' : LoopState)
    (lastmod_date source : string) :
  resolve_lastmod m use_filesystem template_file template_path st
    = (Ok (lastmod_date, source), st') →
  PyStr.is_empty lastmod_date = false.
Proof.
  unfold resolve_lastmod, mbind, M_bind, lift, print.
  destruct use_filesystem.
  { destruct (get_file_lastmod m template_path) as [s|e] eqn:Hf; [|done].
    intros [= <- _ _]. by eapply get_file_lastmod_nonempty. }
  destruct (git_raises m template_path) as [e0|] eqn:Hr.
  { by rewrite (get_git_lastmod_raises m template_path e0 Hr). }
  destruct (get_git_lastmod m template_path) as [[[d|] t]|e] eqn:Hgit; [| |done].
  - intros [= <- _ _].
    destruct (git_log m template_path) as [out| |] eqn:Hg.
    + rewrite (get_git_lastmod_Completed m template_path out Hr Hg) in Hgit.
      destruct (PyStr.split_ws out) as [|d0 rest] eqn:Hs; [done|].
      injection Hgit as <- _.
      pose proof (split_ws_head_token out d0 rest Hs) as Ht.
      unfold is_token in Ht.
      apply andb_prop in Ht as [Ht _]. by apply negb_true_iff in Ht.
    + by rewrite (get_git_lastmod_failed m template_path Hr Hg) in Hgit.
    + by rewrite (get_git_lastmod_not_found m template_path Hr Hg) in Hgit.
  - destruct t as [[|]|];
      (destruct (get_file_lastmod m template_path) as [s|e] eqn:Hf; [|done]);
      intros [= <- _ _]; by eapply get_file_lastmod_nonempty.
Qed.

End written_date.

Lemma git_date_is_token_witness :
  get_git_lastmod unexecutable_git "f" = Raise PermissionError ∧
  is_token "2025-01-15" = true ∧
  Some false ≠ Some true.
Proof.
  destruct (git_date_is_token unexecutable_git "f") as (H1 & _).
  destruct (git_date_is_token git_world "f") as (_ & H2 & _).
  destruct (git_date_is_token
              (sample_world (Completed (nbsp +:+ nl)) None None None false) "f")
    as (_ & _ & H3).
  refine (conj _ (conj _ _)).
  - apply H1. reflexivity.
  - destruct (H2 "2025-01-15" (Some true)) as (_ & Ht & _); [reflexivity|].
    exact Ht.
  - apply H3. reflexivity.
Defined.

Lemma resolve_lastmod_sources_witness :
  PyStr.is_empty "2025-01-15" = false ∧
  ((false = true ∧ "git" = "filesystem" ∧
    get_file_lastmod git_world "/srv/site/templates/index.html"
      = Ok "2025-01-15" ∧
    mk_LoopState 0 [] = mk_LoopState 0 []) ∨
   (false = false ∧ "git" = "git" ∧ mk_LoopState 0 [] = mk_LoopState 0 [] ∧
    git_raises git_world "/srv/site/templates/index.html" = None ∧
    ∃ out, git_log git_world "/srv/site/templates/index.html" = Completed out ∧
           head (PyStr.split_ws out) = Some "2025-01-15") ∨
   (false = false ∧ "git" = "filesystem (not in git)" ∧
    git_raises git_world "/srv/site/templates/index.html" = None ∧
    untracked git_world "/srv/site/templates/index.html" ∧
    get_file_lastmod git_world "/srv/site/templates/index.html"
      = Ok "2025-01-15" ∧
    mk_LoopState 0 []
      = advance 0 [WarnNotTracked "templates/index.html"] (mk_LoopState 0 [])) ∨
   (false = false ∧ "git" = "filesystem (git unavailable)" ∧
    git_raises git_world "/srv/site/templates/index.html" = None ∧
    git_log git_world "/srv/site/templates/index.html" = FileNotFoundError ∧
    get_file_lastmod git_world "/srv/site/templates/index.html"
      = Ok "2025-01-15" ∧
    mk_LoopState 0 [] = mk_LoopState 0 [])).
Proof.
  apply (resolve_lastmod_sources git_world false "templates/index.html"
           "/srv/site/templates/index.html" (mk_LoopState 0 [])
           (mk_LoopState 0 []) "2025-01-15" "git").
  reflexivity.
Defined.

(** ** A processed entry *)

Section processed.

Context (w : World) (use_filesystem : bool).

(** An entry of a mapped route leaves the iteration with the resolved
    date in [lastmod], ["1.0"] in [priority] and ["weekly"] in
    [changefreq], whatever these children held before, and with its own
    [loc]; the block that is written for it has all six lines. *)
Theorem processed_entry_fields
    (u l : Element) (s path template_file : string) (st : LoopState) :
  find LOC u = Some l → text l = Some s →
  extract_path (PyStr.strip s) = Ok (Some path) →
  ROUTE_TO_FILE !! path = Some template_file →
  ∃ lastmod_date source st1 u' st',
    resolve_lastmod w use_filesystem template_file
                    (path_join (project_root w) template_file) st
      = (Ok (lastmod_date, source), st1) ∧
    process_url w use_filesystem u st = (Ok u', st') ∧
    child_text LASTMOD u' = Some lastmod_date ∧
    child_text PRIORITY u' = Some "1.0" ∧
    child_text CHANGEFREQ u' = Some "weekly" ∧
    find LOC u' = Some l ∧ tag u' = tag u ∧
    url_writes [u'] = root_block s lastmod_date.
Proof.
  intros Hl Ht He Hr.
  destruct (mapped_steps_uniform w use_filesystem path template_file)
    as (d & src & msgs & Hres & Hsteps).
  destruct (Hsteps u st) as (msg & Hm).
  rewrite <- (process_url_mapped w use_filesystem u l s path template_file st
                Hl Ht He Hr) in Hm.
  pose proof (resolve_lastmod_nonempty w use_filesystem _ _ _ _ _ _ (Hres st))
    as Hd.
  destruct (route_lookup _ _ Hr) as [-> ->].
  destruct (steps_result_fields "/" d u) as (F1 & F2 & F3 & F4 & F5 & _).
  specialize (F2 "1.0" ltac:(by vm_compute)).
  specialize (F3 "weekly" ltac:(by vm_compute)).
  rewrite Hl in F4.
  eexists d, src, _, _, _. split; [apply Hres|]. split; [exact Hm|].
  repeat (split; [done|]).
  cbn [url_writes]. unfold url_texts. rewrite F4.
  apply child_text_Some in F1 as (e1 & -> & T1).
  apply child_text_Some in F2 as (e2 & -> & T2).
  apply child_text_Some in F3 as (e3 & -> & T3).
  unfold escaped_text. rewrite Ht, T1, T2, T3.
  assert (PyStr.truthy (Some d) = true) as -> by (cbn; by rewrite Hd).
  assert (PyStr.is_empty s = false) as Hs.
  { destruct s; [|done]. by vm_compute in He. }
  assert (PyStr.truthy (Some s) = true) as -> by (cbn; by rewrite Hs).
  unfold url_block, optional_line. cbn [loc_text lastmod_text changefreq_text
    priority_text PyStr.truthy].
  cbn [from_option]. unfold id. rewrite escape_is_empty, Hd. reflexivity.
Qed.



End processed.

Section unchanged_entries.

Context (m : Machine) (use_filesystem : bool).

(** An iteration changes an entry or the counter for the root route
    only: every other entry, the pages of [/page_route] among them, comes
    back as it went in, with the counter as it was.  The path is taken
    from the stripped [loc]: a [loc] of the root with a no-break space
    behind it is one of the root route. *)
Theorem only_root_route_changes
    (u u' : Element) (st st' : LoopState) :
  process_url m use_filesystem u st = (Ok u', st') →
  u' ≠ u ∨ updated_count st' ≠ updated_count st →
  ∃ l s, find LOC u = Some l ∧ text l = Some s ∧
         extract_path (PyStr.strip s) = Ok (Some "/").
Proof.
  intros Hp Hch.
  destruct (find LOC u) as [l|] eqn:Hl.
  2: { rewrite process_url_no_loc in Hp by done.
       injection Hp as <- <-. by destruct Hch. }
  destruct (text l) as [s|] eqn:Ht.
  2: { by rewrite (process_url_no_text m use_filesystem u l st Hl Ht) in Hp. }
  destruct (extract_path_returns (PyStr.strip s)) as ([path|] & He).
  - destruct (ROUTE_TO_FILE !! path) as [tf|] eqn:Hr.
    + destruct (route_lookup _ _ Hr) as [-> ->]. eauto.
    + rewrite (process_url_unmapped m use_filesystem u l s path st Hl Ht He Hr)
        in Hp.
      injection Hp as <- <-. cbn in Hch. rewrite Nat.add_0_r in Hch.
      by destruct Hch.
  - unfold process_url in Hp. rewrite Hl, Ht in Hp.
    unfold mbind, M_bind, lift in Hp. rewrite He in Hp.
    injection Hp as <- <-. by destruct Hch.
Qed.

End unchanged_entries.

Lemma processed_entry_fields_witness :
  ∃ u' st',
    process_url git_world false stale_entry (mk_LoopState 0 []) = (Ok u', st') ∧
    child_text LASTMOD u' = Some "2025-01-15" ∧
    child_text PRIORITY u' = Some "1.0" ∧
    url_writes [u'] = root_block "https://yourdomainname.com/" "2025-01-15".
Proof.
  destruct (processed_entry_fields git_world false stale_entry
              (mk_Element LOC (Some "https://yourdomainname.com/") [])
              "https://yourdomainname.com/" "/" "templates/index.html"
              (mk_LoopState 0 []))
    as (d & src & st1 & u' & st' & Hres & Hp & F1 & F2 & _ & _ & _ & Hb);
    [reflexivity..|].
  vm_compute in Hres. injection Hres as <- _ _.
  exists u', st'. by repeat (split; [assumption|]).
Defined.

Lemma only_root_route_changes_witness :
  (∃ l s, find LOC root_entry = Some l ∧ text l = Some s ∧
          extract_path (PyStr.strip s) = Ok (Some "/")) ∧
  (∃ l s, find LOC nbsp_entry = Some l ∧ text l = Some s ∧
          extract_path (PyStr.strip s) = Ok (Some "/")).
Proof.
  split.
  - apply (only_root_route_changes git_world false root_entry root_entry_updated
             (mk_LoopState 0 [])
             (mk_LoopState 3 [MsgAdded "/" "2025-01-15" "git"])).
    + reflexivity.
    + right. cbn. lia.
  - apply (only_root_route_changes git_world false nbsp_entry nbsp_entry_updated
             (mk_LoopState 0 [])
             (mk_LoopState 3 [MsgAdded "/" "2025-01-15" "git"])).
    + reflexivity.
    + right. cbn. lia.
Defined.


(** ** A second run *)

Section second_run.

Context (w : World) (use_filesystem : bool).

Lemma process_url_again (u u' : Element) (st st' : LoopState) :
  process_url w use_filesystem u st = (Ok u', st') →
  ∀ st2, ∃ msgs,
    process_url w use_filesystem u' st2 = (Ok u', advance 0 msgs st2).
Proof.
  intros Hp st2.
  destruct (find LOC u) as [l|] eqn:Hl.
  2: { rewrite process_url_no_loc in Hp by done. injection Hp as <- _.
       exists []. by rewrite advance_0_nil, process_url_no_loc. }
  destruct (text l) as [s|] eqn:Ht.
  2: { by rewrite (process_url_no_text w use_filesystem u l st Hl Ht) in Hp. }
  destruct (extract_path_returns (PyStr.strip s)) as ([path|] & He).
  - destruct (ROUTE_TO_FILE !! path) as [tf|] eqn:Hr.
    + rewrite (process_url_mapped w use_filesystem u l s path tf st Hl Ht He Hr)
        in Hp.
      destruct (mapped_steps_uniform w use_filesystem path tf)
        as (d & src & msgs & _ & Hsteps).
      destruct (Hsteps u st) as (msg & Hm). rewrite Hm in Hp.
      injection Hp as <- _.
      destruct (steps_result_fields path d u) as (_ & _ & _ & Hloc & _).
      rewrite Hl in Hloc.
      rewrite (process_url_mapped w use_filesystem _ l s path tf st2 Hloc Ht He Hr).
      destruct (Hsteps (steps_result path d u) st2) as (msg2 & ->).
      destruct (steps_result_again path d u) as [-> ->]. eauto.
    + rewrite (process_url_unmapped w use_filesystem u l s path st Hl Ht He Hr)
        in Hp.
      injection Hp as <- _.
      rewrite (process_url_unmapped w use_filesystem u l s path st2 Hl Ht He Hr).
      eauto.
  - assert (∀ st0, process_url w use_filesystem u st0 = (Ok u, st0)) as Hskip.
    { intros st0. unfold process_url. rewrite Hl, Ht.
      unfold mbind, M_bind, lift. by rewrite He. }
    rewrite Hskip in Hp. injection Hp as <- _.
    exists []. by rewrite advance_0_nil.
Qed.

(** A loop over the entries that a loop returned, on the same machine,
    returns them once more as they are and counts no update. *)
Theorem update_loop_idempotent
    (cs cs' : list Element) (st st' st2 : LoopState) :
  update_loop w use_filesystem cs st = (Ok cs', st') →
  ∃ st3, update_loop w use_filesystem cs' st2 = (Ok cs', st3) ∧
         updated_count st3 = updated_count st2.
Proof.
  revert cs' st st' st2. induction cs as [|c cs IH]; intros cs' st st' st2.
  - intros [= <- _]. by exists st2.
  - cbn [update_loop]. unfold mbind, M_bind.
    destruct (has_tag URL c) eqn:Hc.
    + destruct (process_url w use_filesystem c st) as [[c'|e] st1] eqn:Hp; [|done].
      destruct (update_loop w use_filesystem cs st1) as [[cs1|e] st1'] eqn:Hloop;
        [|done].
      intros [= <- _]. cbn [update_loop]. unfold mbind, M_bind.
      destruct (process_url_kept w use_filesystem c c' st st1 Hp) as (Htag & _).
      assert (has_tag URL c' = true) as -> by (unfold has_tag in *; by rewrite Htag).
      destruct (process_url_again c c' st st1 Hp st2) as (msgs & ->).
      destruct (IH cs1 st1 st1' (advance 0 msgs st2) Hloop) as (st3 & -> & Hcount).
      exists st3. split; [done|]. rewrite Hcount. cbn. lia.
    + destruct (update_loop w use_filesystem cs st) as [[cs1|e] st1'] eqn:Hloop;
        [|done].
      intros [= <- _]. cbn [update_loop]. unfold mbind, M_bind. rewrite Hc.
      destruct (IH cs1 st st1' st2 Hloop) as (st3 & -> & Hcount).
      by exists st3.
Qed.

End second_run.

Lemma update_loop_idempotent_witness :
  ∃ cs' st3,
    update_loop git_world false (children three_root) (mk_LoopState 0 [])
      = (Ok cs', mk_LoopState 2
                   [WarnNoMapping "/a?x=1&y=<2>";
                    MsgUpdated "/" (Some "2024-06-30") "2025-01-15" "git"]) ∧
    update_loop git_world false cs' (mk_LoopState 0 []) = (Ok cs', st3) ∧
    updated_count st3 = 0.
Proof.
  eexists _, _. split; [vm_compute; reflexivity|].
  match goal with
  | |- update_loop _ _ ?cs' _ = _ ∧ _ =>
      destruct (update_loop_idempotent git_world false (children three_root) cs'
                  (mk_LoopState 0 [])
                  (mk_LoopState 2
                     [WarnNoMapping "/a?x=1&y=<2>";
                      MsgUpdated "/" (Some "2024-06-30") "2025-01-15" "git"])
                  (mk_LoopState 0 []))
        as (st3 & H1 & H2); [vm_compute; reflexivity|]
  end.
  vm_compute in H1. injection H1 as <-. split; reflexivity.
Defined.

(** ** The document under the loop *)

Section document.

Context (w : World) (use_filesystem : bool).

Lemma tags_set_first_text (t v : string) (cs : list Element) :
  tag <$> set_first_text t v cs = tag <$> cs.
Proof.
  induction cs as [|c cs IH]; [done|]. cbn [set_first_text].
  destruct (has_tag t c); cbn; [done | by rewrite IH].
Qed.

Lemma tags_lastmod_result (d : string) (u : Element) :
  ∃ added, tag <$> children (lastmod_result d u) = (tag <$> children u) ++ added.
Proof.
  unfold lastmod_result. destruct (find LASTMOD u).
  - exists []. cbn. by rewrite tags_set_first_text, app_nil_r.
  - exists [LASTMOD]. cbn. by rewrite fmap_app.
Qed.

Lemma tags_table_result (t : string) (cfg : option string) (u : Element) :
  ∃ added, tag <$> children (table_result t cfg u) = (tag <$> children u) ++ added.
Proof.
  unfold table_result. destruct cfg as [v|].
  - destruct (find t u).
    + exists []. cbn. by rewrite tags_set_first_text, app_nil_r.
    + exists [t]. cbn. by rewrite fmap_app.
  - exists []. by rewrite app_nil_r.
Qed.

Lemma process_url_keeps (u u' : Element) (st st' : LoopState) :
  process_url w use_filesystem u st = (Ok u', st') →
  tag u' = tag u ∧ text u' = text u ∧ find LOC u' = find LOC u ∧
  ∃ added, tag <$> children u' = (tag <$> children u) ++ added.
Proof.
  intros Hp.
  assert (Hrefl : tag u = tag u ∧ text u = text u ∧ find LOC u = find LOC u ∧
                  ∃ added, tag <$> children u = (tag <$> children u) ++ added).
  { repeat split. exists []. by rewrite app_nil_r. }
  destruct (find LOC u) as [l|] eqn:Hl.
  2: { rewrite process_url_no_loc in Hp by done. injection Hp as <- _.
       by rewrite Hl. }
  destruct (text l) as [s|] eqn:Ht.
  2: { by rewrite (process_url_no_text w use_filesystem u l st Hl Ht) in Hp. }
  destruct (extract_path_returns (PyStr.strip s)) as ([path|] & He).
  - destruct (ROUTE_TO_FILE !! path) as [tf|] eqn:Hr.
    + rewrite (process_url_mapped w use_filesystem u l s path tf st Hl Ht He Hr)
        in Hp.
      destruct (mapped_steps_uniform w use_filesystem path tf)
        as (d & src & msgs & _ & Hsteps).
      destruct (Hsteps u st) as (msg & Hm). rewrite Hm in Hp.
      injection Hp as <- _.
      destruct (steps_result_fields path d u) as (_ & _ & _ & F4 & F5 & F6).
      rewrite Hl in F4. repeat split; try done.
      unfold steps_result.
      destruct (tags_table_result CHANGEFREQ (CHANGEFREQ_MAP !! path)
                  (table_result PRIORITY (str_float <$> PRIORITY_MAP !! path)
                     (lastmod_result d u))) as (a3 & ->).
      destruct (tags_table_result PRIORITY (str_float <$> PRIORITY_MAP !! path)
                  (lastmod_result d u)) as (a2 & ->).
      destruct (tags_lastmod_result d u) as (a1 & ->).
      exists (a1 ++ a2 ++ a3). by rewrite !app_assoc.
    + rewrite (process_url_unmapped w use_filesystem u l s path st Hl Ht He Hr)
        in Hp.
      injection Hp as <- _. by rewrite Hl.
  - unfold process_url in Hp. rewrite Hl, Ht in Hp.
    unfold mbind, M_bind, lift in Hp. rewrite He in Hp.
    injection Hp as <- _. by rewrite Hl.
Qed.

(** The loop returns as many children of the root as it got, in the
    same places.  A child that is no [url] element is untouched; an
    entry keeps its tag, its text and its [loc], and its own children
    keep their tags and their order, new ones coming behind them. *)
Theorem loop_keeps_document
    (cs cs' : list Element) (st st' : LoopState) :
  update_loop w use_filesystem cs st = (Ok cs', st') →
  length cs' = length cs ∧ Forall2 same_place cs cs'.
Proof.
  intros Hloop.
  assert (HF : Forall2 same_place cs cs').
  { revert cs' st st' Hloop. induction cs as [|c cs IH]; intros cs' st st'.
    - intros [= <- _]. constructor.
    - cbn [update_loop]. unfold mbind, M_bind.
      destruct (has_tag URL c) eqn:Hc.
      + destruct (process_url w use_filesystem c st) as [[c'|e] st1] eqn:Hp;
          [|done].
        destruct (update_loop w use_filesystem cs st1) as [[cs1|e] st2] eqn:Hl;
          [|done].
        intros [= <- _]. constructor; [|by eapply IH].
        destruct (process_url_keeps c c' st st1 Hp) as (H1 & H2 & H3 & H4).
        unfold same_place. by rewrite Hc.
      + destruct (update_loop w use_filesystem cs st) as [[cs1|e] st2] eqn:Hl;
          [|done].
        intros [= <- _]. constructor; [|by eapply IH].
        unfold same_place. repeat split; try done.
        exists []. by rewrite app_nil_r. }
  split; [|done]. symmetry. by eapply Forall2_length.
Qed.


End document.

Lemma loop_keeps_document_witness :
  ∃ cs',
    update_loop git_world false (children three_root) (mk_LoopState 0 [])
      = (Ok cs', mk_LoopState 2
                   [WarnNoMapping "/a?x=1&y=<2>";
                    MsgUpdated "/" (Some "2024-06-30") "2025-01-15" "git"]) ∧
    length cs' = 3 ∧ Forall2 same_place (children three_root) cs'.
Proof.
  eexists. split; [vm_compute; reflexivity|].
  match goal with
  | |- length ?cs' = _ ∧ _ =>
      apply (loop_keeps_document git_world false (children three_root) cs'
               (mk_LoopState 0 [])
               (mk_LoopState 2
                  [WarnNoMapping "/a?x=1&y=<2>";
                   MsgUpdated "/" (Some "2024-06-30") "2025-01-15" "git"]))
  end.
  vm_compute. reflexivity.
Defined.

(** ** The files after a run *)

Section files_after.

Context (m : Machine) (use_filesystem : bool) (fs : gmap string string).

Lemma tmp_path_ne : tmp_path m ≠ sitemap_path m.
Proof.
  unfold tmp_path, sitemap_path, path_join. intros H.
  apply (inj (String.app _)) in H. cbv in H. discriminate H.
Qed.

(** The runs of [update_sitemap], by the files that they leave: nothing
    is touched before the temporary file is created; a failing write
    leaves the temporary file; a failing move leaves what it has written
    to the sitemap, if anything, and the handler removes the temporary
    file; a run that returns has moved the file. *)
Lemma update_sitemap_leaves :
  let o := update_sitemap m use_filesystem fs in
  (∃ e, returned o = Raise e ∧ files o = fs) ∨
  (∃ c, returned o = Raise OSError ∧ files o = <[tmp_path m := c]> fs) ∨
  (∃ c, returned o = Raise (Exception OSError) ∧ move_fault m = true ∧
        files o = delete (tmp_path m)
                    match move_clobbers m with
                    | Some written =>
                        <[sitemap_path m := written]> (<[tmp_path m := c]> fs)
                    | None => <[tmp_path m := c]> fs
                    end) ∨
  (∃ c, returned o = Ok () ∧
        files o = <[sitemap_path m := c]> (delete (tmp_path m)
                                             (<[tmp_path m := c]> fs))).
Proof.
  cbn zeta. unfold update_sitemap.
  destruct (fs !! sitemap_path m) as [content|] eqn:Hfs; [|left; eauto].
  destruct (ET_parse m content) as [root|e] eqn:Hparse; [|left; eauto].
  destruct (update_loop _ _ _ _) as [[cs|e] st] eqn:Hloop; [|left; eauto].
  assert (Hmove : ∀ c,
    let o := (let '(fs2, out, r) :=
                replace_sitemap m (<[tmp_path m := c]> fs) (updated_count st) in
              mk_Outcome fs2 (printed st ++ out) r) in
    returned o = Raise (Exception OSError) ∧ move_fault m = true ∧
    files o = delete (tmp_path m)
                match move_clobbers m with
                | Some written =>
                    <[sitemap_path m := written]> (<[tmp_path m := c]> fs)
                | None => <[tmp_path m := c]> fs
                end ∨
    returned o = Ok () ∧
    files o = <[sitemap_path m := c]> (delete (tmp_path m)
                                         (<[tmp_path m := c]> fs))).
  { intros c. cbn zeta. unfold replace_sitemap, shutil_move.
    destruct (move_fault m).
    - left. rewrite bool_decide_eq_true_2; [done|].
      destruct (move_clobbers m).
      + rewrite lookup_insert_ne by apply not_eq_sym, tmp_path_ne.
        rewrite lookup_insert_eq. eauto.
      + rewrite lookup_insert_eq. eauto.
    - rewrite lookup_insert_eq. cbn. by right. }
  unfold write_tmp. destruct (create_fault m); [left; eauto|].
  destruct (write_fault m) as [k|].
  - case_bool_decide; [right; left; eauto|].
    destruct (Hmove (concat_str (writes (mk_Element (tag root) (text root) cs))))
      as [(? & ? & ?)|[? ?]];
      [right; right; left; eauto | right; right; right; eauto].
  - destruct (Hmove (concat_str (writes (mk_Element (tag root) (text root) cs))))
      as [(? & ? & ?)|[? ?]];
      [right; right; left; eauto | right; right; right; eauto].
Qed.


(** A run that returns has put the document of the entries of the loop
    in the place of the sitemap; no file is left at the path of the
    temporary file, every other file is as it was, and the last two
    lines printed are the report, with the counter of the loop in it. *)
Theorem successful_run_files :
  returned (update_sitemap m use_filesystem fs) = Ok () →
  ∃ content root cs st,
    fs !! sitemap_path m = Some content ∧
    ET_parse m content = Ok root ∧
    update_loop m use_filesystem (children root) (mk_LoopState 0 [])
      = (Ok cs, st) ∧
    files (update_sitemap m use_filesystem fs) !! tmp_path m = None ∧
    files (update_sitemap m use_filesystem fs) !! sitemap_path m
      = Some (render_document (entries_of cs)) ∧
    (∀ p, p ≠ sitemap_path m → p ≠ tmp_path m →
          files (update_sitemap m use_filesystem fs) !! p = fs !! p) ∧
    stdout (update_sitemap m use_filesystem fs)
      = printed st ++ [MsgSuccess (updated_count st);
                       MsgLocation (sitemap_path m)].
Proof.
  intros Hr.
  destruct (update_sitemap_returns m use_filesystem fs Hr)
    as (content & root & cs & st & Hfs & Hparse & Hloop & Hfile & Hout).
  exists content, root, cs, st. repeat (split; [done|]).
  rewrite writes_render in Hfile. cbn [children] in Hfile.
  split; [|split; [exact Hfile|split; [|exact Hout]]].
  - destruct update_sitemap_leaves
      as [(e0 & He & _)|[(c & He & _)|[(c & He & _)|(c & _ & Hf)]]];
      try congruence.
    rewrite Hf, lookup_insert_ne by apply not_eq_sym, tmp_path_ne.
    by rewrite lookup_delete_eq.
  - intros p H1 H2.
    destruct update_sitemap_leaves
      as [(e0 & He & _)|[(c & He & _)|[(c & He & _)|(c & _ & Hf)]]];
      try congruence.
    by rewrite Hf, lookup_insert_ne, lookup_delete_ne, lookup_insert_ne.
Qed.

End files_after.

(** ** The exit status *)

Section exit_status.

Context (w : World) (use_filesystem : bool) (fs : gmap string string).




End exit_status.


(** The sitemap after a move that failed in its copy. *)
Lemma clobbering_move_changes_sitemap :
  returned (update_sitemap clobbering_move false sample_files)
    = Raise (Exception OSError) ∧
  sample_files !! sitemap_path clobbering_move = Some "<urlset/>" ∧
  files (update_sitemap clobbering_move false sample_files)
    !! sitemap_path clobbering_move = Some "<?xml version=" ∧
  files (update_sitemap clobbering_move false sample_files)
    !! tmp_path clobbering_move = None.
Proof. repeat split; vm_compute; reflexivity. Qed.

Lemma successful_run_files_witness :
  files (update_sitemap git_world false sample_files) !! tmp_path git_world = None ∧
  files (update_sitemap git_world false sample_files) !! sitemap_path git_world
    = Some (render_document
              [mk_UrlEntry "https://yourdomainname.com/" (Some "2025-01-15")
                           (Some "weekly") (Some "1.0")]) ∧
  stdout (update_sitemap git_world false sample_files)
    = [MsgAdded "/" "2025-01-15" "git"; MsgSuccess 3;
       MsgLocation "/srv/site/seo/sitemap.xml"].
Proof.
  destruct (successful_run_files git_world false sample_files)
    as (content & root & cs & st & _ & Hparse & Hloop & H1 & H2 & _ & H3).
  - vm_compute. reflexivity.
  - injection Hparse as <-. vm_compute in Hloop. injection Hloop as <- <-.
    exact (conj H1 (conj H2 H3)).
Defined.

